(** * Post/comment deletion and search-partitioned listing of the board backend

    A shallow embedding of [service/board/delete_post.py] and
    [service/board/list_post.py]:

    - [DeletePostService]: [validate_level], [validate_exists_reply],
      [validate_exists_comment], [delete_write];
    - [DeleteCommentService]: [get_comment], [check_authority], [delete_comment];
    - [ListDeleteService]: [delete_writes];
    - [ListPostService]: [get_query] and the comment decoration of
      [add_additional_info_to_writes].

    The database session, the points ledger, the attachment store and the
    file cache are threaded as one explicit [World]; a raised exception is a
    [Raise] result.  Python [int] is [Z], [str] is [string]. *)

From Stdlib Require Import ZArith List String Bool Lia DecimalString.
From Stdlib Require Import Permutation.
Import ListNotations.

Open Scope string_scope.
Open Scope list_scope.
Open Scope Z_scope.

(* ================================================================== *)
(** ** Python values and built-ins used by the services *)

Module Py.

(** A positional argument of a call: what the services hand to
    [save_point].  [Request] is the FastAPI request object. *)
Inductive value : Type :=
| Request
| NoneV
| Str (s : string)
| Int (z : Z).

(** Truth value of a [str]: empty is false. *)
Definition truthy_str (s : string) : bool := negb (String.eqb s "").

(** Truth value of an optional [str] column: [None] and [""] are false. *)
Definition truthy_opt (o : option string) : bool :=
  match o with
  | Some s => truthy_str s
  | None => false
  end.

(** Truth value of an [int]. *)
Definition truthy_int (z : Z) : bool := negb (z =? 0).

(** [str(z)] / the [{z}] of an f-string. *)
Definition str (z : Z) : string := NilZero.string_of_int (Z.to_int z).

(** [needle in hay] on strings. *)
Definition contains (needle hay : string) : bool :=
  match String.index 0 needle hay with
  | Some _ => true
  | None => false
  end.

(** [a == b] on optional strings. *)
Definition opt_eqb (a b : option string) : bool :=
  match a, b with
  | Some x, Some y => String.eqb x y
  | None, None => true
  | _, _ => false
  end.

Definition of_opt (o : option string) : value :=
  match o with
  | Some s => Str s
  | None => NoneV
  end.

(** [x or d] on integers. *)
Definition int_or (x d : Z) : Z := if truthy_int x then x else d.

End Py.

(* ================================================================== *)
(** ** Rows of the data model ([core.models]) *)

(** A row of a board's write table: posts and comments share the shape. *)
Record Write : Type := mkWrite {
  wr_id : Z;
  wr_num : Z;
  wr_reply : string;
  wr_parent : Z;
  wr_is_comment : Z;
  wr_comment : Z;
  wr_comment_reply : string;
  wr_option : string;
  wr_content : string;
  mb_id : option string
}.

Module BoardNew.
(** A row of the cross-board recency table. *)
Record t : Type := mk {
  bo_table : string;
  wr_id : Z;
  wr_parent : Z;
  mb_id : option string
}.
End BoardNew.

Module Scrap.
(** A member's bookmark of a post. *)
Record t : Type := mk {
  bo_table : string;
  wr_id : Z;
  mb_id : option string
}.
End Scrap.

(** The board row: configuration and aggregate counters.  [bo_notice] is the
    list of pinned post ids. *)
Record Board : Type := mkBoard {
  bo_table : string;
  bo_subject : string;
  bo_notice : list Z;
  bo_count_write : Z;
  bo_count_comment : Z;
  bo_write_point : Z;
  bo_comment_point : Z;
  bo_count_delete : Z;
  bo_comment_level : Z
}.

Module Member.
(** The requesting member as the services see it. *)
Record t : Type := mk {
  mb_id : option string;
  admin_type : option string;
  level : Z
}.
End Member.

Module Point.
(** A ledger entry, keyed by (member, table, id, action). *)
Record t : Type := mk {
  mb_id : option string;
  rel_table : string;
  rel_id : Z;
  rel_action : string
}.

Definition matches (m : option string) (tbl : string) (id : Z)
           (action : string) (p : t) : bool :=
  Py.opt_eqb (mb_id p) m && String.eqb (rel_table p) tbl
  && (rel_id p =? id) && String.eqb (rel_action p) action.
End Point.

Module BoardFile.
(** An attachment of a post. *)
Record t : Type := mk {
  bo_table : string;
  wr_id : Z;
  bf_file : string
}.

Definition of_post (tbl : string) (id : Z) (f : t) : bool :=
  String.eqb (bo_table f) tbl && (wr_id f =? id).
End BoardFile.

(** The request: only the session grants and the query string are read. *)
Record Request : Type := mkRequest {
  session : string -> bool;
  query_sca : option string;
  query_spt : option string
}.

(* ================================================================== *)
(** ** The world the services act on *)

(** Calls made to the collaborators, in the order they were made. *)
Inductive Event : Type :=
| EvDeletePoint (m : option string) (tbl : string) (id : Z)
                (action : string) (found : bool)
| EvSavePoint (args : list Py.value)
| EvDeleteBoardFiles (tbl : string) (id : Z)
| EvCommit
| EvClose
| EvDeletePrefix (prefix : string).

Record World : Type := mkWorld {
  w_writes : list Write;
  w_board_new : list BoardNew.t;
  w_scraps : list Scrap.t;
  w_board : Board;
  w_points : list Point.t;
  w_files : list BoardFile.t;
  w_cache : list string;
  w_trace : list Event
}.

Definition set_writes (ws : list Write) (w : World) : World :=
  mkWorld ws (w_board_new w) (w_scraps w) (w_board w) (w_points w)
          (w_files w) (w_cache w) (w_trace w).

Definition set_board_new (bn : list BoardNew.t) (w : World) : World :=
  mkWorld (w_writes w) bn (w_scraps w) (w_board w) (w_points w)
          (w_files w) (w_cache w) (w_trace w).

Definition set_scraps (sc : list Scrap.t) (w : World) : World :=
  mkWorld (w_writes w) (w_board_new w) sc (w_board w) (w_points w)
          (w_files w) (w_cache w) (w_trace w).

Definition set_board (b : Board) (w : World) : World :=
  mkWorld (w_writes w) (w_board_new w) (w_scraps w) b (w_points w)
          (w_files w) (w_cache w) (w_trace w).

Definition set_points (ps : list Point.t) (w : World) : World :=
  mkWorld (w_writes w) (w_board_new w) (w_scraps w) (w_board w) ps
          (w_files w) (w_cache w) (w_trace w).

Definition set_files (fs : list BoardFile.t) (w : World) : World :=
  mkWorld (w_writes w) (w_board_new w) (w_scraps w) (w_board w) (w_points w)
          fs (w_cache w) (w_trace w).

Definition set_cache (c : list string) (w : World) : World :=
  mkWorld (w_writes w) (w_board_new w) (w_scraps w) (w_board w) (w_points w)
          (w_files w) c (w_trace w).

Definition log (e : Event) (w : World) : World :=
  mkWorld (w_writes w) (w_board_new w) (w_scraps w) (w_board w) (w_points w)
          (w_files w) (w_cache w) (w_trace w ++ [e]).

(* ================================================================== *)
(** ** Exceptions and the state-and-error monad *)

Inductive Exc : Type :=
| HTTPError (status_code : Z) (detail : string) (url : option string)
| ValueError.

Inductive Res (A : Type) : Type :=
| Ok (a : A)
| Raise (e : Exc).

Arguments Ok {A} a.
Arguments Raise {A} e.

Definition M (A : Type) : Type := World -> Res A * World.

Definition ret {A} (a : A) : M A := fun w => (Ok a, w).

Definition bind {A B} (m : M A) (k : A -> M B) : M B :=
  fun w =>
    match m w with
    | (Ok a, w') => k a w'
    | (Raise e, w') => (Raise e, w')
    end.

Definition raise {A} (e : Exc) : M A := fun w => (Raise e, w).

Definition gets {A} (f : World -> A) : M A := fun w => (Ok (f w), w).

Definition modify (f : World -> World) : M unit := fun w => (Ok tt, f w).

Notation "x <- m ;; k" := (bind m (fun x => k))
  (at level 61, m at next level, right associativity).
Notation "m ;;; k" := (bind m (fun _ => k))
  (at level 61, right associativity).

(** [self.raise_exception(status_code, detail, url)] of [BoardService]. *)
Definition raise_exception {A} (status_code : Z) (detail : string)
           (url : option string) : M A :=
  raise (HTTPError status_code detail url).

(* ================================================================== *)
(** ** Collaborators *)

(** Helpers of [lib.board_lib], [lib.common] and [BoardService] that the
    services call and whose code is outside the files embedded here.  They
    are an interface: every result below holds for any implementation. *)
Class Lib : Type := {
  (** [is_owner(obj, mb_id)]; [obj] may be a missing row. *)
  is_owner : option Write -> option string -> bool;
  (** [BoardService.is_delete_by_comment(wr_id)]. *)
  is_delete_by_comment : World -> Member.t -> Z -> bool;
  (** [remove_query_params(request, name)]. *)
  remove_query_params : Request -> string -> list (string * string);
  (** [set_url_query_params(url, params)]. *)
  set_url_query_params : string -> list (string * string) -> string;
  (** [write_search_filter(model, sca, sfl, stx)]: the rows the category
      and free-text conditions accept. *)
  write_search_filter :
    option string -> option string -> option string -> Write -> bool;
  (** [hasattr(write_model, name)]. *)
  hasattr_write_model : string -> bool;
  (** [int(text)] on a query-string value; [None] is [ValueError]. *)
  py_int : string -> option Z
}.

(** Modelled from the spec: [PointService.delete_point(actor, board,
    post_id, reason) -> bool], true when an entry with that key existed and
    was reversed.  The matching entries leave the ledger and the call is
    recorded. *)
Definition delete_point (m : option string) (tbl : string) (id : Z)
           (action : string) : M bool :=
  fun w =>
    let found := existsb (Point.matches m tbl id action) (w_points w) in
    let kept :=
      filter (fun p => negb (Point.matches m tbl id action p)) (w_points w) in
    (Ok found, log (EvDeletePoint m tbl id action found) (set_points kept w)).

(** Modelled from the spec: [PointService.save_point(actor, delta, memo,
    ...)].  The ledger's own accounting is outside the services; the call
    is recorded with the positional arguments it received. *)
Definition save_point (args : list Py.value) : M unit :=
  modify (log (EvSavePoint args)).

(** Modelled from the spec: [BoardFileService.delete_board_files(board,
    post_id)] removes the attachments of that post. *)
Definition delete_board_files (tbl : string) (id : Z) : M unit :=
  modify (fun w =>
    log (EvDeleteBoardFiles tbl id)
        (set_files
           (filter (fun f => negb (BoardFile.of_post tbl id f)) (w_files w))
           w)).

(** Modelled from the spec: [FileCache().delete_prefix(prefix)] drops every
    cache entry whose key starts with [prefix]. *)
Definition delete_prefix (p : string) : M unit :=
  modify (fun w =>
    log (EvDeletePrefix p)
        (set_cache (filter (fun k => negb (String.prefix p k)) (w_cache w)) w)).

(** Modelled from the spec: [BoardService.set_board_notice(wr_id, False)]
    removes the post id from the board's pinned ids if present. *)
Definition set_board_notice (b : Board) (id : Z) : list Z :=
  filter (fun n => negb (n =? id)) (bo_notice b).

(** [db.commit()] and [db.close()]: the unit of work ends.  Row changes are
    applied to the world as they are issued; a failing commit is not
    modelled. *)
Definition db_commit : M unit := modify (log EvCommit).
Definition db_close : M unit := modify (log EvClose).

(** [db.get(write_model, id)]: the row with that primary key. *)
Definition db_get (ws : list Write) (id : Z) : option Write :=
  find (fun r => wr_id r =? id) ws.

(** [ORDER BY]: a stable insertion sort by the given "not after" test. *)
Fixpoint insert_by {A} (leb : A -> A -> bool) (r : A) (l : list A) : list A :=
  match l with
  | [] => [r]
  | x :: rest => if leb r x then r :: l else x :: insert_by leb r rest
  end.

Fixpoint order_by {A} (leb : A -> A -> bool) (l : list A) : list A :=
  match l with
  | [] => []
  | x :: rest => insert_by leb x (order_by leb rest)
  end.

(** [ORDER BY wr_id]. *)
Definition order_by_wr_id : list Write -> list Write :=
  order_by (fun a b => wr_id a <=? wr_id b).

(* ================================================================== *)
(** ** Service objects *)

(** What every service keeps from [BoardService.__init__]. *)
Record BoardService : Type := mkBoardService {
  self_request : Request;
  self_bo_table : string;
  self_member : Member.t
}.

(** [DeletePostService]: the target id, the row loaded for it at
    construction and the level of its author. *)
Record DeletePostService : Type := mkDeletePostService {
  dp_base :> BoardService;
  self_wr_id : Z;
  self_write : Write;
  self_write_member_level : Z
}.

(** [DeleteCommentService]: a [DeletePostService] plus the comment row. *)
Record DeleteCommentService : Type := mkDeleteCommentService {
  dc_base :> DeletePostService;
  self_comment : Write
}.

Definition tag_write : string := "쓰기".
Definition tag_comment : string := "댓글".

Definition msg_higher_level : string :=
  "자신보다 높은 권한의 게시글은 삭제할 수 없습니다.".
Definition msg_own_post_only : string :=
  "자신의 게시글만 삭제할 수 있습니다.".
Definition msg_guest_post : string :=
  "비회원 글을 삭제할 권한이 없습니다.".
Definition msg_replies_first : string :=
  "답변이 있는 글은 삭제할 수 없습니다. 우선 답변글부터 삭제하여 주십시오.".
Definition msg_no_authority : string := "삭제할 권한이 없습니다.".
Definition msg_own_comment_only : string :=
  "자신의 댓글만 삭제할 수 있습니다.".

Definition msg_too_many_comments (n : Z) : string :=
  String.append "이 글과 관련된 댓글이 "
    (String.append (Py.str n) "건 이상 존재하므로 삭제 할 수 없습니다.").

(** [f"{subject} {wr_id} 글 삭제"] and [f"{subject} {wr_id} 댓글 삭제"]. *)
Definition memo_write (subject : string) (id : Z) : string :=
  String.append subject
    (String.append " " (String.append (Py.str id) " 글 삭제")).

Definition memo_comment (subject : string) (id : Z) : string :=
  String.append subject
    (String.append " " (String.append (Py.str id) " 댓글 삭제")).

(** [f"ss_delete_{bo_table}_{wr_id}"]. *)
Definition ss_delete (tbl : string) (id : Z) : string :=
  String.append "ss_delete_"
    (String.append tbl (String.append "_" (Py.str id))).

(** [f"ss_delete_comment_{bo_table}_{wr_id}"]. *)
Definition ss_delete_comment (tbl : string) (id : Z) : string :=
  String.append "ss_delete_comment_"
    (String.append tbl (String.append "_" (Py.str id))).

(** [f"ss_secret_comment_{bo_table}_{wr_id}"]. *)
Definition ss_secret_comment (tbl : string) (id : Z) : string :=
  String.append "ss_secret_comment_"
    (String.append tbl (String.append "_" (Py.str id))).

(** [f"/bbs/password/delete/{bo_table}/{wr_id}"] and its comment twin. *)
Definition password_url (kind tbl : string) (id : Z) : string :=
  String.append "/bbs/password/"
    (String.append kind
       (String.append "/" (String.append tbl (String.append "/" (Py.str id))))).

(** [f"latest-{bo_table}"]. *)
Definition latest_prefix (tbl : string) : string := String.append "latest-" tbl.

(* ================================================================== *)
(** ** [DeletePostService] *)

Section DeletePost.

Context {lib : Lib}.

(** [validate_level(with_session)]: the permission check. *)
Definition validate_level (self : DeletePostService) (with_session : bool)
  : M unit :=
  let member := self_member self in
  let write := self_write self in
  if Py.opt_eqb (Member.admin_type member) (Some "super") then ret tt
  else
    (if Py.truthy_opt (Member.admin_type member)
        && (self_write_member_level self >? Member.level member)
     then raise_exception 403 msg_higher_level None
     else if Py.truthy_opt (mb_id write)
             && negb (is_owner (Some write) (Member.mb_id member))
     then raise_exception 403 msg_own_post_only None
     else ret tt) ;;;
    (if negb (Py.truthy_opt (mb_id write)) then
       if with_session
          && negb (session (self_request self)
                     (ss_delete (self_bo_table self) (self_wr_id self)))
       then
         let url :=
           password_url "delete" (self_bo_table self) (self_wr_id self) in
         let query_params :=
           remove_query_params (self_request self) "token" in
         raise_exception 403 msg_guest_post
           (Some (set_url_query_params url query_params))
       else if negb with_session
       then raise_exception 403 msg_guest_post None
       else ret tt
     else ret tt).

(** The [exists(...)] query of [validate_exists_reply]: another
    non-comment row of the same thread number whose [wr_reply] starts
    with this post's [wr_reply].  [wr_reply] holds letters only, so
    [LIKE 'x%'] is the prefix test. *)
Definition exists_reply (self : DeletePostService) (ws : list Write) : bool :=
  existsb
    (fun r =>
       String.prefix (wr_reply (self_write self)) (wr_reply r)
       && (wr_num r =? wr_num (self_write self))
       && (wr_is_comment r =? 0)
       && negb (wr_id r =? self_wr_id self))
    ws.

(** [validate_exists_reply()]: a post with replies cannot be deleted. *)
Definition validate_exists_reply (self : DeletePostService) : M unit :=
  reply <- gets (fun w => exists_reply self (w_writes w)) ;;
  if reply then raise_exception 403 msg_replies_first None else ret tt.

(** [validate_exists_comment()]: too many comments forbid deletion. *)
Definition validate_exists_comment (self : DeletePostService) : M unit :=
  ok <- gets (fun w => is_delete_by_comment w (self_member self)
                         (self_wr_id self)) ;;
  if negb ok then
    n <- gets (fun w => bo_count_delete (w_board w)) ;;
    raise_exception 403 (msg_too_many_comments n) None
  else ret tt.

(** One turn of the [for write in writes] loop of [delete_write]; the
    pair is [(delete_write_count, delete_comment_count)]. *)
Definition delete_write_row (self : DeletePostService) (write : Write)
           (counts : Z * Z) : M (Z * Z) :=
  board <- gets w_board ;;
  if negb (Py.truthy_int (wr_is_comment write)) then
    found <- delete_point (mb_id write) (self_bo_table self)
               (self_wr_id self) tag_write ;;
    (if negb found then
       save_point [Py.of_opt (mb_id write);
                   Py.Int (bo_write_point board * (-1));
                   Py.Str (memo_write (bo_subject board) (self_wr_id self))]
     else ret tt) ;;;
    delete_board_files (bo_table board) (self_wr_id self) ;;;
    ret (fst counts + 1, snd counts)
  else
    found <- delete_point (mb_id write) (self_bo_table self)
               (self_wr_id self) tag_comment ;;
    (if negb found then
       save_point [Py.Request;
                   Py.of_opt (mb_id write);
                   Py.Int (bo_comment_point board * (-1));
                   Py.Str (memo_comment (bo_subject board) (self_wr_id self))]
     else ret tt) ;;;
    ret (fst counts, snd counts + 1).

Fixpoint delete_write_rows (self : DeletePostService) (writes : list Write)
         (counts : Z * Z) : M (Z * Z) :=
  match writes with
  | [] => ret counts
  | write :: rest =>
      counts' <- delete_write_row self write counts ;;
      delete_write_rows self rest counts'
  end.

(** [delete_write()]: the cascade of a post deletion. *)
Definition delete_write (self : DeletePostService) : M unit :=
  let wr := self_wr_id self in
  let tbl := self_bo_table self in
  writes <- gets (fun w =>
              order_by_wr_id
                (filter (fun r => wr_parent r =? wr) (w_writes w))) ;;
  counts <- delete_write_rows self writes (0, 0) ;;
  modify (fun w =>
    set_writes (filter (fun r => negb (wr_parent r =? wr)) (w_writes w)) w) ;;;
  modify (fun w =>
    set_board_new
      (filter (fun n => negb (String.eqb (BoardNew.bo_table n) tbl
                              && (BoardNew.wr_parent n =? wr)))
              (w_board_new w)) w) ;;;
  modify (fun w =>
    set_scraps
      (filter (fun s => negb (String.eqb (Scrap.bo_table s) tbl
                              && (Scrap.wr_id s =? wr)))
              (w_scraps w)) w) ;;;
  modify (fun w =>
    let b := w_board w in
    set_board
      (mkBoard (bo_table b) (bo_subject b) (set_board_notice b wr)
               (bo_count_write b - fst counts)
               (bo_count_comment b - snd counts)
               (bo_write_point b) (bo_comment_point b)
               (bo_count_delete b) (bo_comment_level b)) w) ;;;
  db_commit ;;;
  db_close ;;;
  delete_prefix (latest_prefix tbl).

(** Modelled from the spec: the [delete_post] operation, whose route is
    outside the files embedded here: authorization, then the reply check,
    then the comment threshold, all evaluated before the mutation. *)
Definition delete_post (self : DeletePostService) : M unit :=
  validate_level self true ;;;
  validate_exists_reply self ;;;
  validate_exists_comment self ;;;
  delete_write self.

(* ---------------------------------------------------------------- *)
(** ** [DeleteCommentService] *)

(** [get_comment()]: the row must exist and be a comment.  The id is the
    one the service was built with. *)
Definition get_comment (id : Z) : M Write :=
  comment <- gets (fun w => db_get (w_writes w) id) ;;
  match comment with
  | None =>
      raise (HTTPError 404
               (String.append (Py.str id) " : 존재하지 않는 댓글입니다.") None)
  | Some c =>
      if negb (Py.truthy_int (wr_is_comment c)) then
        raise (HTTPError 400
                 (String.append (Py.str id) " : 댓글이 아닌 게시글입니다.")
                 None)
      else ret c
  end.

(** [check_authority(with_session)]. *)
Definition check_authority (self : DeleteCommentService)
           (with_session : bool) : M unit :=
  let member := self_member self in
  let comment := self_comment self in
  if Py.truthy_opt (Member.admin_type member) then ret tt
  else if negb (Py.truthy_opt (mb_id comment)) then
    if negb with_session then raise_exception 403 msg_no_authority None
    else if session (self_request self)
              (ss_delete_comment (self_bo_table self) (self_wr_id self))
    then ret tt
    else
      let url := password_url "comment-delete" (self_bo_table self)
                   (self_wr_id self) in
      let query_params := remove_query_params (self_request self) "token" in
      raise_exception 403 msg_no_authority
        (Some (set_url_query_params url query_params))
  else if negb (is_owner (Some comment) (Member.mb_id member))
  then raise_exception 403 msg_own_comment_only None
  else ret tt.

(** [db.delete(self.comment)]: the row with the comment's primary key
    leaves the table. *)
Definition db_delete (row : Write) (ws : list Write) : list Write :=
  filter (fun r => negb (wr_id r =? wr_id row)) ws.

(** [wr_comment = wr_comment - 1] on one row. *)
Definition dec_wr_comment (r : Write) : Write :=
  mkWrite (wr_id r) (wr_num r) (wr_reply r) (wr_parent r) (wr_is_comment r)
          (wr_comment r - 1) (wr_comment_reply r) (wr_option r)
          (wr_content r) (mb_id r).

(** [UPDATE ... SET wr_comment = wr_comment - 1 WHERE wr_id = parent]. *)
Definition update_wr_comment (parent : Z) (ws : list Write) : list Write :=
  map (fun r => if wr_id r =? parent then dec_wr_comment r else r) ws.

(** [delete_comment()]. *)
Definition delete_comment (self : DeleteCommentService) : M unit :=
  let comment := self_comment self in
  modify (fun w => set_writes (db_delete comment (w_writes w)) w) ;;;
  modify (fun w =>
    set_writes (update_wr_comment (wr_parent comment) (w_writes w)) w) ;;;
  db_commit.

(* ---------------------------------------------------------------- *)
(** ** [ListDeleteService] *)

(** One turn of the loop of [delete_writes]. *)
Definition delete_writes_row (self : BoardService) (write : Write) : M unit :=
  modify (fun w => set_writes (db_delete write (w_writes w)) w) ;;;
  board <- gets w_board ;;
  found <- delete_point (mb_id write) (self_bo_table self) (wr_id write)
             tag_write ;;
  (if negb found then
     save_point [Py.of_opt (mb_id write);
                 Py.Int (bo_write_point board * (-1));
                 Py.Str (memo_write (bo_subject board) (wr_id write))]
   else ret tt) ;;;
  delete_board_files (bo_table board) (wr_id write).

Fixpoint delete_writes_rows (self : BoardService) (writes : list Write)
  : M unit :=
  match writes with
  | [] => ret tt
  | write :: rest =>
      delete_writes_row self write ;;; delete_writes_rows self rest
  end.

(** [delete_writes(wr_ids)]: the batch deletion. *)
Definition delete_writes (self : BoardService) (wr_ids : list Z) : M unit :=
  writes <- gets (fun w =>
              filter (fun r => existsb (Z.eqb (wr_id r)) wr_ids)
                     (w_writes w)) ;;
  delete_writes_rows self writes ;;;
  db_commit ;;;
  delete_prefix (latest_prefix (self_bo_table self)).

End DeletePost.

(* ================================================================== *)
(** ** [ListPostService] *)

(** The [search_params] dictionary. *)
Record SearchParams : Type := mkSearchParams {
  sfl : option string;
  stx : option string;
  sst : option string;
  sod : option string
}.

(** One [order_by] clause; [ListSort] is the board's configured ordering
    ([get_list_sort_query]). *)
Inductive OrderBy : Type :=
| Asc (column : string)
| Desc (column : string)
| ListSort.

(** A [select]: its condition, evaluated against the table when the query
    runs, and its ordering clauses. *)
Record Query : Type := mkQuery {
  q_where : list Write -> Write -> bool;
  q_order : list OrderBy
}.

(** [query.where(cond)]. *)
Definition where_ (q : Query) (cond : list Write -> Write -> bool) : Query :=
  mkQuery (fun ws r => q_where q ws r && cond ws r) (q_order q).

(** [query.order_by(clause)]. *)
Definition order_by_ (q : Query) (c : OrderBy) : Query :=
  mkQuery (q_where q) (q_order q ++ [c]).

(** The rows a query yields before [offset]/[limit]. *)
Definition run_query (q : Query) (ws : list Write) : list Write :=
  filter (q_where q ws) ws.

(** [wr_num.between(lo, hi)]: SQL [BETWEEN] takes both ends. *)
Definition between (lo hi n : Z) : bool := (lo <=? n) && (n <=? hi).

(** [coalesce(min(wr_num), 0)]. *)
Definition min_wr_num (ws : list Write) : Z :=
  match ws with
  | [] => 0
  | r :: rest => fold_left (fun m x => Z.min m (wr_num x)) rest (wr_num r)
  end.

(** What [get_query] leaves on the service: the query and the two
    neighbouring window starts. *)
Record ListQuery : Type := mkListQuery {
  lq_query : Query;
  lq_prev_spt : option Z;
  lq_next_spt : option Z
}.

Section ListPost.

Context {lib : Lib}.

(** The sort block of [get_query] (the source runs it twice). *)
Definition apply_sort (params : SearchParams) (q : Query) : Query :=
  match sst params with
  | Some column =>
      if Py.truthy_str column && hasattr_write_model column then
        if Py.opt_eqb (sod params) (Some "desc")
        then order_by_ q (Desc column)
        else order_by_ q (Asc column)
      else order_by_ q ListSort
  | None => order_by_ q ListSort
  end.

(** [sca or (sfl and stx)]. *)
Definition is_search (sca : option string) (params : SearchParams) : bool :=
  Py.truthy_opt sca
  || (Py.truthy_opt (sfl params) && Py.truthy_opt (stx params)).

(** [int(request.query_params.get("spt", min_spt))]; [None] is the
    [ValueError] of a text that is no integer. *)
Definition request_spt (self : BoardService) (min_spt : Z) : option Z :=
  match query_spt (self_request self) with
  | Some text => py_int text
  | None => Some min_spt
  end.

(** [get_query(search_params)].  [cf_search_part] is
    [int(config.cf_search_part)]; [ws] is the board's write table. *)
Definition get_query (self : BoardService) (cf_search_part : Z)
           (params : SearchParams) (ws : list Write) : Res ListQuery :=
  let sca := query_sca (self_request self) in
  let query :=
    mkQuery (fun _ r =>
               write_search_filter sca (sfl params) (stx params) r) [] in
  let query := apply_sort params query in
  let query := apply_sort params query in
  if is_search sca params then
    let search_part := Py.int_or cf_search_part 10000 in
    let min_spt := min_wr_num ws in
    match request_spt self min_spt with
    | None => Raise ValueError
    | Some spt =>
        let prev_spt :=
          if spt >? min_spt then Some (spt - search_part) else None in
        let next_spt :=
          if spt + search_part <? 0 then Some (spt + search_part) else None in
        let query :=
          where_ query
            (fun _ r => between spt (spt + search_part) (wr_num r)) in
        let subquery (table : list Write) : list Z :=
          nodup Z.eq_dec (map wr_parent (run_query query table)) in
        let query :=
          mkQuery (fun table r =>
                     existsb (Z.eqb (wr_id r)) (subquery table)) [] in
        Ok (mkListQuery query prev_spt next_spt)
    end
  else
    Ok (mkListQuery (where_ query (fun _ r => wr_is_comment r =? 0))
                    None None).

(** The decoration of one comment in [add_additional_info_to_writes]:
    the flags and the content shown. *)
Record CommentView : Type := mkCommentView {
  cv_comment : Write;
  is_reply : bool;
  is_edit : bool;
  is_del : bool;
  is_secret : bool;
  is_secret_content : bool;
  save_content : string
}.

Definition secret_placeholder : string := "비밀글 입니다.".

Definition decorate_comment (self : BoardService) (board : Board)
           (ws : list Write) (comment : Write) : CommentView :=
  let member := self_member self in
  let admin := Py.truthy_opt (Member.admin_type member) in
  let same := Py.opt_eqb (mb_id comment) (Member.mb_id member) in
  let reply :=
    (Z.of_nat (String.length (wr_comment_reply comment)) <? 5)
    && (bo_comment_level board <=? Member.level member) in
  let secret := Py.contains "secret" (wr_option comment) in
  let session_secret_comment_name :=
    ss_secret_comment (self_bo_table self) (wr_id comment) in
  let parent_write := db_get ws (wr_parent comment) in
  if secret
     && negb admin
     && negb (is_owner (Some comment) (Member.mb_id member))
     && negb (is_owner parent_write (Member.mb_id member))
     && negb (session (self_request self) session_secret_comment_name)
  then
    mkCommentView comment reply (admin || same)
                  (admin || same || negb (Py.truthy_opt (mb_id comment)))
                  secret true secret_placeholder
  else
    mkCommentView comment reply (admin || same)
                  (admin || same || negb (Py.truthy_opt (mb_id comment)))
                  secret false (wr_content comment).

(** [ORDER BY wr_comment, wr_comment_reply]. *)
Definition comment_order (a b : Write) : bool :=
  (wr_comment a <? wr_comment b)
  || ((wr_comment a =? wr_comment b)
      && String.leb (wr_comment_reply a) (wr_comment_reply b)).

(** The [write.comments] that [add_additional_info_to_writes] attaches to
    a listed post. *)
Definition comments_of (self : BoardService) (board : Board)
           (ws : list Write) (write : Write) : list CommentView :=
  map (decorate_comment self board ws)
      (order_by comment_order
         (filter (fun r => (wr_parent r =? wr_id write)
                           && (wr_is_comment r =? 1)) ws)).

End ListPost.

(* ================================================================== *)
(** ** Vocabulary of the properties *)

(** A row is a comment when its flag is set. *)
Definition is_comment (r : Write) : bool := Py.truthy_int (wr_is_comment r).

(** The number of live comments attached to post [id]. *)
Definition live_comments (ws : list Write) (id : Z) : Z :=
  Z.of_nat
    (List.length (filter (fun r => (wr_parent r =? id) && is_comment r) ws)).

(** The shape of a board's write table: [wr_id] is the primary key and a
    top-level post is its own parent. *)
Definition store_ok (ws : list Write) : Prop :=
  NoDup (map wr_id ws)
  /\ forall r, In r ws -> is_comment r = false -> wr_parent r = wr_id r.

(** Every parent reference that resolves points at a top-level post. *)
Definition parents_are_posts (ws : list Write) : Prop :=
  forall r p, In r ws -> In p ws -> wr_id p = wr_parent r ->
              wr_is_comment p = 0.

(** The key of each reversal attempted in a run of events. *)
Fixpoint reversal_keys (evs : list Event)
  : list (option string * string * Z * string) :=
  match evs with
  | [] => []
  | EvDeletePoint m tbl id action _ :: rest =>
      (m, tbl, id, action) :: reversal_keys rest
  | _ :: rest => reversal_keys rest
  end.

(** The posts whose attachments were removed in a run of events. *)
Fixpoint file_removals (evs : list Event) : list (string * Z) :=
  match evs with
  | [] => []
  | EvDeleteBoardFiles tbl id :: rest => (tbl, id) :: file_removals rest
  | _ :: rest => file_removals rest
  end.

Definition is_commit (e : Event) : bool :=
  match e with
  | EvCommit => true
  | _ => false
  end.

(** What a turn of the loop of [delete_write] leaves alone. *)
Definition same_tables (w w' : World) : Prop :=
  w_writes w' = w_writes w /\ w_board w' = w_board w
  /\ w_board_new w' = w_board_new w /\ w_scraps w' = w_scraps w
  /\ w_cache w' = w_cache w.

(** The reversal [delete_writes] attempts for a row. *)
Definition reversal_key (self : BoardService) (r : Write)
  : option string * string * Z * string :=
  (mb_id r, self_bo_table self, wr_id r, tag_write).

(** The row's id is among the ids handed to [delete_writes]. *)
Definition named_in (ids : list Z) (r : Write) : bool :=
  existsb (Z.eqb (wr_id r)) ids.

(* ================================================================== *)
(** ** A concrete board to run the services on *)

Module Demo.

(** An implementation of the helper interface: ownership is equality with
    a non-empty author id, the text filter looks the keyword up in the
    content, [int] reads a decimal literal. *)
Definition lib : Lib := {|
  is_owner := fun obj m =>
    match obj with
    | Some r => Py.truthy_opt (mb_id r) && Py.opt_eqb (mb_id r) m
    | None => false
    end;
  is_delete_by_comment := fun w _ id =>
    live_comments (w_writes w) id <? bo_count_delete (w_board w);
  remove_query_params := fun _ _ => [];
  set_url_query_params := fun url _ => url;
  write_search_filter := fun _ _ stx r =>
    match stx with
    | Some text => Py.contains text (wr_content r)
    | None => true
    end;
  hasattr_write_model := fun name => String.eqb name "wr_id";
  py_int := fun text => option_map Z.of_int (NilZero.int_of_string text)
|}.

Definition alice : option string := Some "alice".
Definition bob : option string := Some "bob".

(** Post 1 by alice with the comments 2 (bob, secret) and 3 (guest), and
    post 4 by bob, a reply to post 1 within the same thread. *)
Definition post1 : Write := mkWrite 1 (-1) "" 1 0 2 "" "" "hello" alice.
Definition comment2 : Write :=
  mkWrite 2 (-1) "" 1 1 1 "" "secret" "whisper" bob.
Definition comment3 : Write := mkWrite 3 (-1) "" 1 1 2 "" "" "guest" None.
Definition post4 : Write := mkWrite 4 (-1) "A" 4 0 0 "" "" "answer" bob.
Definition post5 : Write := mkWrite 5 (-10000) "" 5 0 0 "" "" "edge" None.

Definition board : Board := mkBoard "free" "Free" [1; 5] 3 2 10 5 10 1.

Definition no_session : string -> bool := fun _ => false.

Definition world (ws : list Write) : World :=
  mkWorld ws
          [BoardNew.mk "free" 1 1 alice; BoardNew.mk "free" 2 1 bob]
          [Scrap.mk "free" 1 bob]
          board
          [Point.mk alice "free" 1 tag_write]
          [BoardFile.mk "free" 1 "a.png"]
          ["latest-free-1"; "latest-qa-1"]
          [].

Definition guest : Member.t := Member.mk None None 1.
Definition member_alice : Member.t := Member.mk alice None 2.
Definition member_bob : Member.t := Member.mk bob None 2.

Definition service (m : Member.t) (grants : string -> bool) : BoardService :=
  mkBoardService (mkRequest grants None None) "free" m.

Definition delete_post1 (m : Member.t) : DeletePostService :=
  mkDeletePostService (service m no_session) 1 post1 2.

Definition delete_post5 (m : Member.t) : DeletePostService :=
  mkDeletePostService (service m no_session) 5 post5 1.

Definition delete_comment2 (m : Member.t) : DeleteCommentService :=
  mkDeleteCommentService
    (mkDeletePostService (service m no_session) 2 comment2 2) comment2.

(** A search request of a guest, with the window start given or not. *)
Definition search (spt : option string) : BoardService :=
  mkBoardService (mkRequest no_session None spt) "free" guest.

Definition find_text (text : string) : SearchParams :=
  mkSearchParams (Some "wr_content") (Some text) None None.

End Demo.

(* ================================================================== *)
(** ** Further vocabulary *)

(** The denormalised counter of every top-level post equals the number of
    its live comments. *)
Definition counters_ok (ws : list Write) : Prop :=
  forall p, In p ws -> is_comment p = false ->
            wr_comment p = live_comments ws (wr_id p).


(** The reversal [delete_write] attempts for a row under the target: always
    under the target's id, tagged by the kind of the row. *)
Definition cascade_key (self : DeletePostService) (r : Write)
  : option string * string * Z * string :=
  (mb_id r, self_bo_table self, self_wr_id self,
   if is_comment r then tag_comment else tag_write).

(* ================================================================== *)
(** ** [ListPostService]: paging *)


(** [get_total_count()]: the rows of the query, counted. *)
Definition get_total_count (q : Query) (ws : list Write) : Z :=
  Z.of_nat (List.length (run_query q ws)).


Section Paging.

Context {lib : Lib}.

(** The database's [ORDER BY]: how the rows of a result are arranged under
    the ordering clauses of the query. *)
Variable order_rows : list OrderBy -> list Write -> list Write.






End Paging.

(* ================================================================== *)
(** ** [BoardNewService]: the cross-board recency list *)

Module News.

(** A row of the recency table with its key. *)
Record Entry : Type := mkEntry {
  bn_id : Z;
  entry : BoardNew.t
}.

(** A board row with its group. *)
Record BoardRow : Type := mkBoardRow {
  board_of : Board;
  gr_id : string
}.

(** The service's configuration, read at construction. *)
Record Config : Type := mkConfig {
  cf_new_rows : Z;
  cf_mobile_page_rows : Z;
  is_mobile : bool
}.

(** [self.page_rows] as [__init__] sets it. *)
Definition page_rows (c : Config) : Z :=
  if is_mobile c && Py.truthy_int (cf_mobile_page_rows c)
  then cf_mobile_page_rows c
  else cf_new_rows c.

(** [BoardNew.board]: the board an entry is joined with. *)
Definition board_for (boards : list BoardRow) (e : Entry) : option BoardRow :=
  find (fun b => String.eqb (bo_table (board_of b))
                            (BoardNew.bo_table (entry e)))
       boards.

(** [get_query(gr_id, mb_id, view)]: the condition on an entry joined with
    its board; the rows come ordered by [bn_id] descending. *)
Definition get_query (gr mb view : option string)
           (b : BoardRow) (e : Entry) : bool :=
  (if Py.truthy_opt gr then Py.opt_eqb (Some (gr_id b)) gr else true)
  && (if Py.truthy_opt mb then Py.opt_eqb (BoardNew.mb_id (entry e)) mb
      else true)
  && (if Py.opt_eqb view (Some "write")
      then BoardNew.wr_parent (entry e) =? BoardNew.wr_id (entry e)
      else if Py.opt_eqb view (Some "comment")
      then negb (BoardNew.wr_parent (entry e) =? BoardNew.wr_id (entry e))
      else true).

(** The rows of a query: the inner join keeps the entries that have a
    board, [ORDER BY bn_id DESC] arranges them. *)
Definition rows (boards : list BoardRow) (news : list Entry)
           (query : BoardRow -> Entry -> bool) : list Entry :=
  order_by (fun a b => bn_id b <=? bn_id a)
    (filter (fun e => match board_for boards e with
                      | Some b => query b e
                      | None => false
                      end) news).

(** [get_offset(current_page)]. *)
Definition get_offset (c : Config) (current_page : Z) : Z :=
  (current_page - 1) * page_rows c.


(** [get_total_count(query)]. *)
Definition get_total_count (boards : list BoardRow) (news : list Entry)
           (query : BoardRow -> Entry -> bool) : Z :=
  Z.of_nat (List.length (rows boards news query)).

End News.

(* ================================================================== *)
(** ** [BoardNewService.delete_board_news]: deletion across boards *)

Module Site.

(** The state the recency service acts on: every board with its write
    table, the recency table, and the collaborators' ledger, attachments,
    cache and calls. *)
Record t : Type := mk {
  boards : list Board;
  tables : string -> list Write;
  news : list News.Entry;
  points : list Point.t;
  files : list BoardFile.t;
  cache : list string;
  trace : list Event
}.

(** How a run ends: normally, or with the [AttributeError] of reading an
    attribute of a board that [db.get] did not find. *)
Inductive Outcome : Type :=
| Done
| AttributeError.

Definition put (e : Event) (s : t) : t :=
  mk (boards s) (tables s) (news s) (points s) (files s) (cache s)
     (trace s ++ [e]).

(** Modelled from the spec: [PointService.delete_point], as for a single
    board. *)
Definition delete_point (m : option string) (tbl : string) (id : Z)
           (action : string) (s : t) : bool * t :=
  let found := existsb (Point.matches m tbl id action) (points s) in
  let kept :=
    filter (fun p => negb (Point.matches m tbl id action p)) (points s) in
  (found,
   put (EvDeletePoint m tbl id action found)
       (mk (boards s) (tables s) (news s) kept (files s) (cache s) (trace s))).

(** Modelled from the spec: [PointService.save_point], recorded with the
    arguments it received. *)
Definition save_point (args : list Py.value) (s : t) : t :=
  put (EvSavePoint args) s.

(** Modelled from the spec: [BoardFileService.delete_board_files]. *)
Definition delete_board_files (tbl : string) (id : Z) (s : t) : t :=
  put (EvDeleteBoardFiles tbl id)
      (mk (boards s) (tables s) (news s) (points s)
          (filter (fun f => negb (BoardFile.of_post tbl id f)) (files s))
          (cache s) (trace s)).

(** Modelled from the spec: [FileCache().delete_prefix]. *)
Definition delete_prefix (p : string) (s : t) : t :=
  put (EvDeletePrefix p)
      (mk (boards s) (tables s) (news s) (points s) (files s)
          (filter (fun k => negb (String.prefix p k)) (cache s)) (trace s)).

(** [db.get(Board, bo_table)]. *)
Definition get_board (s : t) (tbl : string) : option Board :=
  find (fun b => String.eqb (bo_table b) tbl) (boards s).

(** [db.get(write_model, wr_id)] on the write table of [tbl]
    ([dynamic_create_write_table(tbl)]); every table name has a write
    table, empty where the board has no rows. *)
Definition get_write (s : t) (tbl : string) (id : Z) : option Write :=
  db_get (tables s tbl) id.

(** [db.delete(write)] on the write table of [tbl]. *)
Definition delete_row (tbl : string) (write : Write) (s : t) : t :=
  mk (boards s)
     (fun name => if String.eqb name tbl
                  then db_delete write (tables s name)
                  else tables s name)
     (news s) (points s) (files s) (cache s) (trace s).

(** [db.delete(new)]. *)
Definition delete_new (new : News.Entry) (s : t) : t :=
  mk (boards s) (tables s)
     (filter (fun e => negb (News.bn_id e =? News.bn_id new)) (news s))
     (points s) (files s) (cache s) (trace s).

(** [f"{subject} {wr_parent}-{wr_id} 댓글 삭제"]. *)
Definition memo_comment (subject : string) (parent id : Z) : string :=
  String.append subject
    (String.append " "
       (String.append (Py.str parent)
          (String.append "-" (String.append (Py.str id) " 댓글 삭제")))).

(** One turn of the loop of [delete_board_news]. *)
Definition delete_board_new (new : News.Entry) (s : t) : Outcome * t :=
  let tbl := BoardNew.bo_table (News.entry new) in
  let board := get_board s tbl in
  let write := get_write s tbl (BoardNew.wr_id (News.entry new)) in
  let finish (s : t) : Outcome * t :=
    (Done, delete_prefix (latest_prefix tbl) (delete_new new s)) in
  match write with
  | Some write =>
      let s := delete_row tbl write s in
      match board with
      | None => (AttributeError, s)
      | Some board =>
          let s :=
            if wr_is_comment write =? 0 then
              let (found, s) :=
                delete_point (mb_id write) (bo_table board) (wr_id write)
                             tag_write s in
              if negb found then
                save_point [Py.of_opt (mb_id write);
                            Py.Int (bo_write_point board * (-1));
                            Py.Str (memo_write (bo_subject board)
                                               (wr_id write))] s
              else s
            else
              let (found, s) :=
                delete_point (mb_id write) (bo_table board) (wr_id write)
                             tag_comment s in
              if negb found then
                save_point [Py.of_opt (mb_id write);
                            Py.Int (bo_comment_point board * (-1));
                            Py.Str (memo_comment (bo_subject board)
                                                 (wr_parent write)
                                                 (wr_id write))] s
              else s in
          finish (delete_board_files (bo_table board) (wr_id write) s)
      end
  | None => finish s
  end.

Fixpoint delete_board_new_rows (board_news : list News.Entry) (s : t)
  : Outcome * t :=
  match board_news with
  | [] => (Done, s)
  | new :: rest =>
      match delete_board_new new s with
      | (Done, s') => delete_board_new_rows rest s'
      | (AttributeError, s') => (AttributeError, s')
      end
  end.

(** The entries [delete_board_news] loads for the given ids. *)
Definition loaded (bn_ids : list Z) (s : t) : list News.Entry :=
  filter (fun e => existsb (Z.eqb (News.bn_id e)) bn_ids) (news s).

(** [delete_board_news(bn_ids)]. *)
Definition delete_board_news (bn_ids : list Z) (s : t) : Outcome * t :=
  let board_news := loaded bn_ids s in
  match delete_board_new_rows board_news s with
  | (Done, s') => (Done, put EvCommit s')
  | (AttributeError, s') => (AttributeError, s')
  end.

(** The row of entry [e], with its board, when both exist. *)
Definition target (s : t) (e : News.Entry) : option (Board * Write) :=
  match get_write s (BoardNew.bo_table (News.entry e))
                  (BoardNew.wr_id (News.entry e)),
        get_board s (BoardNew.bo_table (News.entry e)) with
  | Some write, Some board => Some (board, write)
  | _, _ => None
  end.

(** Entry [e] points at row [r] of the write table of [tbl]. *)
Definition points_at (tbl : string) (r : Write) (e : News.Entry) : bool :=
  String.eqb (BoardNew.bo_table (News.entry e)) tbl
  && (BoardNew.wr_id (News.entry e) =? wr_id r).

(** The reversal attempted for the row of an entry. *)
Definition reversal_of (bw : Board * Write)
  : option string * string * Z * string :=
  (mb_id (snd bw), bo_table (fst bw), wr_id (snd bw),
   if wr_is_comment (snd bw) =? 0 then tag_write else tag_comment).

(** The prefixes invalidated in a run of events. *)
Fixpoint invalidations (evs : list Event) : list string :=
  match evs with
  | [] => []
  | EvDeletePrefix p :: rest => p :: invalidations rest
  | _ :: rest => invalidations rest
  end.

End Site.

(* ================================================================== *)
(** ** A concrete site to run the recency service on *)

Module DemoSite.

Definition qa : Board := mkBoard "qa" "QA" [] 1 0 10 5 10 1.

(** Entries for post 1 and comment 2 of the free board, and for a post of
    the qa board that is gone. *)
Definition entry10 : News.Entry :=
  News.mkEntry 10 (BoardNew.mk "free" 1 1 Demo.alice).
Definition entry11 : News.Entry :=
  News.mkEntry 11 (BoardNew.mk "free" 2 1 Demo.bob).
Definition entry12 : News.Entry :=
  News.mkEntry 12 (BoardNew.mk "qa" 9 9 Demo.bob).

Definition site : Site.t :=
  Site.mk [Demo.board; qa]
          (fun name =>
             if String.eqb name "free"
             then [Demo.post1; Demo.comment2; Demo.comment3]
             else [])
          [entry10; entry11; entry12]
          [Point.mk Demo.alice "free" 1 tag_write]
          [BoardFile.mk "free" 1 "a.png"]
          ["latest-free-1"; "latest-qa-1"; "menu"]
          [].

(** A guest whose session holds the deletion grant for post 5. *)
Definition granted_guest : DeletePostService :=
  mkDeletePostService
    (Demo.service Demo.guest (fun key => String.eqb key "ss_delete_free_5"))
    5 Demo.post5 1.



End DemoSite.

(* ================================================================== *)
(** ** Lists: ordering and counting *)

Lemma filter_insert_by_length {A} (leb : A -> A -> bool) (g : A -> bool)
      (r : A) (l : list A) :
  List.length (filter g (insert_by leb r l))
  = List.length (filter g (r :: l)).
Proof.
  induction l as [|x rest IH]; [reflexivity|].
  simpl. destruct (leb r x); [reflexivity|].
  simpl in *. destruct (g x), (g r); simpl in *; lia.
Qed.

Lemma filter_order_by_length {A} (leb : A -> A -> bool) (g : A -> bool)
      (l : list A) :
  List.length (filter g (order_by leb l)) = List.length (filter g l).
Proof.
  induction l as [|x rest IH]; [reflexivity|].
  simpl order_by. rewrite filter_insert_by_length.
  simpl. destruct (g x); simpl; lia.
Qed.

Lemma in_insert_by {A} (leb : A -> A -> bool) (r x : A) (l : list A) :
  In x (insert_by leb r l) <-> x = r \/ In x l.
Proof.
  induction l as [|y rest IH]; simpl.
  - intuition congruence.
  - destruct (leb r y); simpl; rewrite ?IH; intuition congruence.
Qed.

Lemma in_order_by {A} (leb : A -> A -> bool) (x : A) (l : list A) :
  In x (order_by leb l) <-> In x l.
Proof.
  induction l as [|y rest IH]; simpl; [tauto|].
  rewrite in_insert_by, IH. intuition congruence.
Qed.

Lemma filter_filter_and {A} (f g : A -> bool) (l : list A) :
  filter f (filter g l) = filter (fun x => g x && f x) l.
Proof.
  induction l as [|x rest IH]; [reflexivity|].
  simpl. destruct (g x); simpl; [destruct (f x)|]; rewrite IH; reflexivity.
Qed.

(** No top-level row sits under an id that no row carries. *)
Lemma no_post_under_id (ws : list Write) (id : Z) :
  (forall r, In r ws -> is_comment r = false -> wr_parent r = wr_id r) ->
  ~ In id (map wr_id ws) ->
  filter (fun r => (wr_parent r =? id) && negb (is_comment r)) ws = [].
Proof.
  induction ws as [|x rest IH]; intros Htop Hid; [reflexivity|].
  simpl. destruct ((wr_parent x =? id) && negb (is_comment x)) eqn:E.
  - exfalso. apply andb_true_iff in E as [E1 E2].
    apply Z.eqb_eq in E1. apply negb_true_iff in E2.
    apply Hid. left. rewrite <- E1. symmetry.
    apply Htop; [left; reflexivity|exact E2].
  - apply IH.
    + intros r Hr. apply Htop. right. exact Hr.
    + intros H. apply Hid. right. exact H.
Qed.

(** In a well-shaped table a post is the only top-level row under its own
    id. *)
Lemma only_post_under_id (ws : list Write) (p : Write) :
  store_ok ws -> In p ws -> is_comment p = false ->
  filter (fun r => (wr_parent r =? wr_id p) && negb (is_comment r)) ws = [p].
Proof.
  intros [Hnd Htop]. induction ws as [|x rest IH]; intros Hin Hp; [easy|].
  simpl in Hnd. inversion Hnd as [|? ? Hx Hrest]; subst.
  assert (Htop' : forall r, In r rest -> is_comment r = false ->
                            wr_parent r = wr_id r)
    by (intros r Hr; apply Htop; right; exact Hr).
  destruct Hin as [->|Hin].
  - simpl. rewrite Hp. rewrite (Htop p (or_introl eq_refl) Hp), Z.eqb_refl.
    simpl. f_equal. apply no_post_under_id; assumption.
  - simpl. destruct ((wr_parent x =? wr_id p) && negb (is_comment x)) eqn:E.
    + exfalso. apply andb_true_iff in E as [E1 E2].
      apply Z.eqb_eq in E1. apply negb_true_iff in E2.
      apply Hx. rewrite <- (Htop x (or_introl eq_refl) E2), E1.
      apply in_map. exact Hin.
    + apply IH; assumption.
Qed.

(* ================================================================== *)
(** ** The loop of [delete_write] *)

Lemma same_tables_refl w : same_tables w w.
Proof. repeat split. Qed.

Lemma same_tables_trans w1 w2 w3 :
  same_tables w1 w2 -> same_tables w2 w3 -> same_tables w1 w3.
Proof.
  unfold same_tables. intros (a & b & c & d & e) (a' & b' & c' & d' & e').
  repeat split; congruence.
Qed.

Lemma delete_write_row_ok self write counts w :
  exists w',
    delete_write_row self write counts w
    = (Ok (if is_comment write
           then (fst counts, snd counts + 1)
           else (fst counts + 1, snd counts)), w')
    /\ same_tables w w'.
Proof.
  unfold delete_write_row, is_comment, bind, gets, delete_point, save_point,
    delete_board_files, modify, ret.
  destruct (Py.truthy_int (wr_is_comment write)) eqn:E; simpl;
    match goal with
    | |- context [existsb ?f ?l] => destruct (existsb f l)
    end; simpl; eexists; (split; [reflexivity|repeat split]).
Qed.

Lemma delete_write_rows_ok self writes counts w :
  exists w',
    delete_write_rows self writes counts w
    = (Ok (fst counts
           + Z.of_nat (List.length
                         (filter (fun r => negb (is_comment r)) writes)),
           snd counts
           + Z.of_nat (List.length (filter is_comment writes))), w')
    /\ same_tables w w'.
Proof.
  revert counts w.
  induction writes as [|x rest IH]; intros counts w.
  - exists w. simpl. unfold ret. rewrite !Z.add_0_r.
    destruct counts; split; [reflexivity|apply same_tables_refl].
  - destruct (delete_write_row_ok self x counts w) as (w1 & E1 & F1).
    destruct (IH (if is_comment x
                  then (fst counts, snd counts + 1)
                  else (fst counts + 1, snd counts)) w1) as (w2 & E2 & F2).
    exists w2. split; [|eapply same_tables_trans; eassumption].
    simpl delete_write_rows. unfold bind at 1. rewrite E1, E2.
    f_equal. f_equal.
    simpl filter. destruct (is_comment x); simpl fst; simpl snd;
      simpl negb; cbv iota; simpl List.length; f_equal; lia.
Qed.

(** [delete_write] always completes; its effect on the tables, in terms of
    the rows found under the target id. *)
Lemma delete_write_effect (self : DeletePostService) (w : World) :
  let under := filter (fun r => wr_parent r =? self_wr_id self) (w_writes w) in
  exists w',
    delete_write self w = (Ok tt, w')
    /\ w_writes w'
       = filter (fun r => negb (wr_parent r =? self_wr_id self)) (w_writes w)
    /\ bo_count_write (w_board w')
       = bo_count_write (w_board w)
         - Z.of_nat (List.length
                       (filter (fun r => negb (is_comment r)) under))
    /\ bo_count_comment (w_board w')
       = bo_count_comment (w_board w)
         - Z.of_nat (List.length (filter is_comment under))
    /\ bo_notice (w_board w')
       = filter (fun n => negb (n =? self_wr_id self)) (bo_notice (w_board w)).
Proof.
  intros under.
  destruct (delete_write_rows_ok self (order_by_wr_id under) (0, 0) w)
    as (w1 & E & (Fw & Fb & Fn & Fs & Fc)).
  unfold order_by_wr_id in E. rewrite !filter_order_by_length in E.
  eexists. split.
  - unfold delete_write. unfold bind at 1. unfold gets at 1.
    unfold bind at 1. fold under. unfold order_by_wr_id. rewrite E.
    unfold bind, modify, db_commit, db_close, delete_prefix. simpl.
    reflexivity.
  - simpl. rewrite Fw, Fb. unfold set_board_notice. repeat split.
Qed.

(** C1: deleting post P with N live comments through [delete_write] takes
    1 off the board's post counter and N off its comment counter, 1 + N in
    total, and leaves no row whose parent is P in the table. *)
Theorem delete_write_drops_post_and_comments
        (self : DeletePostService) (w : World) (p : Write) :
  store_ok (w_writes w) ->
  In p (w_writes w) ->
  is_comment p = false ->
  self_wr_id self = wr_id p ->
  let n := live_comments (w_writes w) (wr_id p) in
  exists w',
    delete_write self w = (Ok tt, w')
    /\ bo_count_write (w_board w') = bo_count_write (w_board w) - 1
    /\ bo_count_comment (w_board w') = bo_count_comment (w_board w) - n
    /\ (bo_count_write (w_board w) + bo_count_comment (w_board w))
       - (bo_count_write (w_board w') + bo_count_comment (w_board w'))
       = 1 + n
    /\ forall r, In r (w_writes w') -> wr_parent r <> wr_id p.
Proof.
  intros Hok Hin Hp Hid n.
  destruct (delete_write_effect self w) as (w' & E & Hw & Hcw & Hcc & _).
  rewrite Hid in Hw, Hcw, Hcc.
  rewrite filter_filter_and in Hcw, Hcc.
  rewrite (only_post_under_id _ _ Hok Hin Hp) in Hcw. simpl in Hcw.
  fold (live_comments (w_writes w) (wr_id p)) in Hcc. fold n in Hcc.
  exists w'. repeat split; try assumption; try lia.
  intros r Hr. rewrite Hw in Hr. apply filter_In in Hr as [_ Hr].
  apply negb_true_iff, Z.eqb_neq in Hr. exact Hr.
Qed.

Lemma delete_write_drops_post_and_comments_witness :
  exists w',
    delete_write (Demo.delete_post1 Demo.member_alice)
                 (Demo.world [Demo.post1; Demo.comment2; Demo.comment3])
    = (Ok tt, w')
    /\ bo_count_write (w_board w') = 3 - 1
    /\ bo_count_comment (w_board w') = 2 - 2
    /\ w_writes w' = [].
Proof.
  destruct (delete_write_drops_post_and_comments
              (Demo.delete_post1 Demo.member_alice)
              (Demo.world [Demo.post1; Demo.comment2; Demo.comment3])
              Demo.post1) as (w' & E & Hw & Hc & _ & _).
  - split.
    + simpl. repeat constructor; simpl; intuition discriminate.
    + intros r [<-|[<-|[<-|[]]]]; simpl; intros H;
        reflexivity || discriminate H.
  - left. reflexivity.
  - reflexivity.
  - reflexivity.
  - exists w'. repeat split; try assumption.
    vm_compute in E. inversion E. reflexivity.
Defined.

(* ================================================================== *)
(** ** Reversal and compensation in [delete_write] *)

(** C3: each row of [delete_write] gets a [delete_point] first and a
    [save_point] only when that found nothing, comments under their own
    reason tag; evaluated on post 1 with comment 2 and an empty ledger, the
    compensation of the post names its author first, while the compensation
    of the comment receives the request object in the actor position, the
    author's id in the amount position and the amount in the memo
    position. *)
Theorem delete_write_comment_compensation_arguments :
  w_trace
    (snd (delete_write (Demo.delete_post1 Demo.member_alice)
            (set_points [] (Demo.world [Demo.post1; Demo.comment2]))))
  = [EvDeletePoint (Some "alice") "free" 1 tag_write false;
     EvSavePoint [Py.Str "alice"; Py.Int (-10); Py.Str "Free 1 글 삭제"];
     EvDeleteBoardFiles "free" 1;
     EvDeletePoint (Some "bob") "free" 1 tag_comment false;
     EvSavePoint [Py.Request; Py.Str "bob"; Py.Int (-5);
                  Py.Str "Free 1 댓글 삭제"];
     EvCommit; EvClose; EvDeletePrefix "latest-free"].
Proof. vm_compute. reflexivity. Qed.

(* ================================================================== *)
(** ** The checks that precede a post deletion *)

Section Preconditions.

Context {lib : Lib}.

(** The permission check reads and never writes. *)
Lemma validate_level_world (self : DeletePostService) (b : bool) (w : World) :
  snd (validate_level self b w) = w.
Proof.
  unfold validate_level, bind, raise_exception, raise, ret.
  repeat match goal with
         | |- context [if ?c then _ else _] => destruct c; simpl
         end; reflexivity.
Qed.


(** C5: when another top-level row of the same thread carries a reply path
    that extends this post's, the reply check raises the
    delete-replies-first refusal, and so does [delete_post] once the
    permission check has passed; in every case the world (tables, counters,
    ledger, attachments, cache, calls made) is left as it was. *)
Theorem delete_post_refuses_when_replies_exist
        (self : DeletePostService) (w : World) (reply : Write) :
  In reply (w_writes w) ->
  wr_id reply <> self_wr_id self ->
  wr_is_comment reply = 0 ->
  wr_num reply = wr_num (self_write self) ->
  String.prefix (wr_reply (self_write self)) (wr_reply reply) = true ->
  validate_exists_reply self w
  = (Raise (HTTPError 403 msg_replies_first None), w)
  /\ (validate_level self true w = (Ok tt, w) ->
      delete_post self w = (Raise (HTTPError 403 msg_replies_first None), w))
  /\ snd (delete_post self w) = w.
Proof.
  intros Hin Hid Hc Hnum Hpre.
  assert (Hex : exists_reply self (w_writes w) = true).
  { unfold exists_reply. apply existsb_exists. exists reply.
    split; [exact Hin|].
    rewrite Hpre, Hnum, Hc, Z.eqb_refl. simpl.
    apply negb_true_iff, Z.eqb_neq. exact Hid. }
  assert (Hreply : validate_exists_reply self w
                   = (Raise (HTTPError 403 msg_replies_first None), w)).
  { unfold validate_exists_reply, bind, gets. rewrite Hex. reflexivity. }
  split; [exact Hreply|]. split.
  - intros Hlevel. unfold delete_post. unfold bind at 1. rewrite Hlevel.
    unfold bind at 1. rewrite Hreply. reflexivity.
  - unfold delete_post. unfold bind at 1.
    pose proof (validate_level_world self true w) as Hw.
    destruct (validate_level self true w) as [[[]|e] w1]; simpl in Hw; subst w1.
    + unfold bind at 1. rewrite Hreply. reflexivity.
    + reflexivity.
Qed.

(** C8: for a post without an author id, a requester who is not an
    administrator and has no deletion grant in the session is refused by
    the permission check with the 403 guest-post refusal, with or without
    session support, and [delete_post] ends there; the world is left as it
    was. *)
Theorem delete_post_denies_guest_post_without_grant
        (self : DeletePostService) (w : World) :
  Py.truthy_opt (mb_id (self_write self)) = false ->
  Py.truthy_opt (Member.admin_type (self_member self)) = false ->
  session (self_request self)
          (ss_delete (self_bo_table self) (self_wr_id self)) = false ->
  let challenge :=
    set_url_query_params
      (password_url "delete" (self_bo_table self) (self_wr_id self))
      (remove_query_params (self_request self) "token") in
  validate_level self true w
  = (Raise (HTTPError 403 msg_guest_post (Some challenge)), w)
  /\ validate_level self false w
     = (Raise (HTTPError 403 msg_guest_post None), w)
  /\ delete_post self w
     = (Raise (HTTPError 403 msg_guest_post (Some challenge)), w).
Proof.
  intros Hguest Hadmin Hgrant challenge.
  assert (Hsuper : Py.opt_eqb (Member.admin_type (self_member self))
                              (Some "super") = false).
  { destruct (Member.admin_type (self_member self)) as [a|]; [|reflexivity].
    simpl in *. unfold Py.truthy_str in Hadmin.
    apply negb_false_iff, String.eqb_eq in Hadmin. subst a. reflexivity. }
  assert (Htrue : validate_level self true w
                  = (Raise (HTTPError 403 msg_guest_post (Some challenge)), w)).
  { unfold validate_level, bind. rewrite Hsuper, Hadmin, Hguest, Hgrant.
    reflexivity. }
  split; [exact Htrue|]. split.
  - unfold validate_level, bind. rewrite Hsuper, Hadmin, Hguest. reflexivity.
  - unfold delete_post. unfold bind at 1. rewrite Htrue. reflexivity.
Qed.

End Preconditions.

Lemma delete_post_refuses_when_replies_exist_witness :
  let self := Demo.delete_post1 Demo.member_alice in
  let w := Demo.world [Demo.post1; Demo.comment2; Demo.post4] in
  @delete_post Demo.lib self w
  = (Raise (HTTPError 403 msg_replies_first None), w).
Proof.
  intros self w.
  destruct (@delete_post_refuses_when_replies_exist Demo.lib self w Demo.post4)
    as (_ & H & _).
  - right. right. left. reflexivity.
  - discriminate.
  - reflexivity.
  - reflexivity.
  - reflexivity.
  - apply H. reflexivity.
Defined.

Lemma delete_post_denies_guest_post_without_grant_witness :
  let self := Demo.delete_post5 Demo.member_alice in
  let w := Demo.world [Demo.post1; Demo.post5] in
  @delete_post Demo.lib self w
  = (Raise (HTTPError 403 msg_guest_post (Some "/bbs/password/delete/free/5")),
     w).
Proof.
  intros self w.
  exact (proj2 (proj2 (@delete_post_denies_guest_post_without_grant
                         Demo.lib self w eq_refl eq_refl eq_refl))).
Defined.

(* ================================================================== *)
(** ** [delete_comment] *)

(** The row removal and the counter update give the same table in either
    order, so the moment the session flushes the pending delete does not
    matter. *)
Lemma delete_then_update_commute (c : Write) (parent : Z) (ws : list Write) :
  update_wr_comment parent (db_delete c ws)
  = db_delete c (update_wr_comment parent ws).
Proof.
  unfold update_wr_comment, db_delete.
  induction ws as [|x rest IH]; [reflexivity|].
  simpl. destruct (negb (wr_id x =? wr_id c)) eqn:E;
    destruct (wr_id x =? parent) eqn:P; simpl; rewrite ?P; simpl;
    rewrite ?E, IH; reflexivity.
Qed.

(** C7: [delete_comment] on comment C completes; a row other than C whose
    id is C's parent id stays with its comment counter lowered by exactly
    1, every other row other than C stays as it was, and nothing else is in
    the table afterwards. *)
Theorem delete_comment_decrements_parent_only
        (self : DeleteCommentService) (w : World) :
  let c := self_comment self in
  exists w',
    delete_comment self w = (Ok tt, w')
    /\ (forall r, In r (w_writes w) -> wr_id r <> wr_id c ->
                  wr_id r = wr_parent c ->
                  exists r', In r' (w_writes w') /\ wr_id r' = wr_id r
                             /\ wr_comment r' = wr_comment r - 1)
    /\ (forall r, In r (w_writes w) -> wr_id r <> wr_id c ->
                  wr_id r <> wr_parent c -> In r (w_writes w'))
    /\ (forall r', In r' (w_writes w') ->
          wr_id r' <> wr_id c
          /\ exists r, In r (w_writes w) /\ wr_id r = wr_id r'
                       /\ wr_comment r'
                          = (if wr_id r =? wr_parent c
                             then wr_comment r - 1 else wr_comment r)
                       /\ (wr_id r <> wr_parent c -> r' = r)).
Proof.
  intros c.
  exists (log EvCommit
            (set_writes
               (update_wr_comment (wr_parent c) (db_delete c (w_writes w))) w)).
  split; [reflexivity|]. simpl.
  unfold update_wr_comment, db_delete. repeat split.
  - intros r Hin Hc Hp. exists (dec_wr_comment r). repeat split.
    apply in_map_iff. exists r. split.
    + apply Z.eqb_eq in Hp. rewrite Hp. reflexivity.
    + apply filter_In. split; [exact Hin|].
      apply negb_true_iff, Z.eqb_neq. exact Hc.
  - intros r Hin Hc Hp. apply in_map_iff. exists r. split.
    + apply Z.eqb_neq in Hp. rewrite Hp. reflexivity.
    + apply filter_In. split; [exact Hin|].
      apply negb_true_iff, Z.eqb_neq. exact Hc.
  - apply in_map_iff in H as (r & <- & Hr). apply filter_In in Hr as [_ Hr].
    apply negb_true_iff, Z.eqb_neq in Hr.
    destruct (wr_id r =? wr_parent c); exact Hr.
  - apply in_map_iff in H as (r & <- & Hr). apply filter_In in Hr as [Hin Hr].
    exists r. split; [exact Hin|].
    destruct (wr_id r =? wr_parent c) eqn:E; repeat split.
    intros Hne. apply Z.eqb_eq in E. contradiction.
Qed.

Lemma delete_comment_decrements_parent_only_witness :
  exists w',
    delete_comment (Demo.delete_comment2 Demo.member_bob)
                   (Demo.world [Demo.post1; Demo.comment2; Demo.comment3])
    = (Ok tt, w')
    /\ exists r', In r' (w_writes w') /\ wr_id r' = 1 /\ wr_comment r' = 2 - 1.
Proof.
  destruct (delete_comment_decrements_parent_only
              (Demo.delete_comment2 Demo.member_bob)
              (Demo.world [Demo.post1; Demo.comment2; Demo.comment3]))
    as (w' & E & Hparent & _).
  exists w'. split; [exact E|].
  apply (Hparent Demo.post1).
  - left. reflexivity.
  - discriminate.
  - reflexivity.
Defined.

(* ================================================================== *)
(** ** [delete_writes] *)

Lemma reversal_keys_app evs evs' :
  reversal_keys (evs ++ evs') = reversal_keys evs ++ reversal_keys evs'.
Proof.
  induction evs as [|e rest IH]; [reflexivity|].
  destruct e; simpl; rewrite IH; reflexivity.
Qed.

Lemma file_removals_app evs evs' :
  file_removals (evs ++ evs') = file_removals evs ++ file_removals evs'.
Proof.
  induction evs as [|e rest IH]; [reflexivity|].
  destruct e; simpl; rewrite IH; reflexivity.
Qed.

(** One turn of the batch loop: the row goes, one reversal is attempted
    under the post tag, the attachments of the row are removed. *)
Lemma delete_writes_row_ok (self : BoardService) (x : Write) (w : World) :
  exists w' evs,
    delete_writes_row self x w = (Ok tt, w')
    /\ w_writes w' = db_delete x (w_writes w)
    /\ w_board w' = w_board w /\ w_board_new w' = w_board_new w
    /\ w_scraps w' = w_scraps w /\ w_cache w' = w_cache w
    /\ w_trace w' = w_trace w ++ evs
    /\ reversal_keys evs = [reversal_key self x]
    /\ file_removals evs = [(bo_table (w_board w), wr_id x)]
    /\ forallb (fun e => negb (is_commit e)) evs = true.
Proof.
  unfold delete_writes_row, bind, gets, modify, delete_point, save_point,
    delete_board_files, ret. simpl.
  destruct (existsb _ (w_points w)); simpl; eexists; eexists;
    (split; [reflexivity|]); simpl; rewrite <- ?app_assoc; simpl;
    repeat split.
Qed.

Lemma delete_writes_rows_ok (self : BoardService) (writes : list Write)
      (w : World) :
  exists w' evs,
    delete_writes_rows self writes w = (Ok tt, w')
    /\ w_writes w'
       = filter (fun r => negb (named_in (map wr_id writes) r)) (w_writes w)
    /\ w_board w' = w_board w /\ w_board_new w' = w_board_new w
    /\ w_scraps w' = w_scraps w /\ w_cache w' = w_cache w
    /\ w_trace w' = w_trace w ++ evs
    /\ reversal_keys evs = map (reversal_key self) writes
    /\ file_removals evs
       = map (fun r => (bo_table (w_board w), wr_id r)) writes
    /\ forallb (fun e => negb (is_commit e)) evs = true
    /\ (writes = [] -> w' = w /\ evs = []).
Proof.
  revert w. induction writes as [|x rest IH]; intros w.
  - exists w, []. simpl. unfold ret. rewrite app_nil_r.
    repeat split. clear. induction (w_writes w) as [|r l IHl];
      [reflexivity|simpl; f_equal; exact IHl].
  - destruct (delete_writes_row_ok self x w)
      as (w1 & e1 & E1 & W1 & B1 & N1 & S1 & C1 & T1 & K1 & F1 & P1).
    destruct (IH w1)
      as (w2 & e2 & E2 & W2 & B2 & N2 & S2 & C2 & T2 & K2 & F2 & P2 & _).
    exists w2, (e1 ++ e2).
    simpl delete_writes_rows. unfold bind at 1. rewrite E1.
    split; [exact E2|]. split.
    { rewrite W2, W1. unfold db_delete. rewrite filter_filter_and.
      apply filter_ext. intros r. unfold named_in. simpl.
      rewrite negb_orb. reflexivity. }
    split; [congruence|]. split; [congruence|]. split; [congruence|].
    split; [congruence|]. split.
    { rewrite T2, T1, app_assoc. reflexivity. }
    split.
    { rewrite reversal_keys_app, K1, K2. reflexivity. }
    split.
    { rewrite file_removals_app, F1, F2, B1. reflexivity. }
    split.
    { rewrite forallb_app, P1, P2. reflexivity. }
    discriminate.
Qed.

(** The rows the batch loads carry exactly the ids that were named and
    exist. *)
Lemma named_in_loaded (ids : list Z) (ws : list Write) (r : Write) :
  In r ws ->
  named_in (map wr_id (filter (named_in ids) ws)) r = named_in ids r.
Proof.
  intros Hin. unfold named_in at 1.
  destruct (named_in ids r) eqn:E.
  - apply existsb_exists. exists (wr_id r). split; [|apply Z.eqb_refl].
    apply in_map. apply filter_In. split; assumption.
  - destruct (existsb _ _) eqn:E'; [|reflexivity].
    apply existsb_exists in E' as (i & Hi & Heq).
    apply Z.eqb_eq in Heq. subst i.
    apply in_map_iff in Hi as (r2 & Hid & Hr2).
    apply filter_In in Hr2 as [_ Hr2].
    unfold named_in in Hr2, E. rewrite Hid in Hr2. congruence.
Qed.

(** [delete_writes] always completes; its whole effect. *)
Lemma delete_writes_effect (self : BoardService) (wr_ids : list Z) (w : World) :
  let loaded := filter (named_in wr_ids) (w_writes w) in
  exists w' evs,
    delete_writes self wr_ids w = (Ok tt, w')
    /\ w_writes w' = filter (fun r => negb (named_in wr_ids r)) (w_writes w)
    /\ w_board w' = w_board w /\ w_board_new w' = w_board_new w
    /\ w_scraps w' = w_scraps w
    /\ w_trace w'
       = w_trace w ++ evs
         ++ [EvCommit; EvDeletePrefix (latest_prefix (self_bo_table self))]
    /\ reversal_keys evs = map (reversal_key self) loaded
    /\ file_removals evs
       = map (fun r => (bo_table (w_board w), wr_id r)) loaded
    /\ forallb (fun e => negb (is_commit e)) evs = true
    /\ w_cache w'
       = filter (fun k => negb (String.prefix
                                  (latest_prefix (self_bo_table self)) k))
                (w_cache w)
    /\ (loaded = [] ->
        evs = [] /\ w_points w' = w_points w /\ w_files w' = w_files w).
Proof.
  intros loaded.
  destruct (delete_writes_rows_ok self loaded w)
    as (w1 & evs & E & W & B & N & S & C & T & K & F & P & Hnil).
  assert (Hrun : delete_writes self wr_ids w
                 = match delete_writes_rows self loaded w with
                   | (Ok _, w2) =>
                       (db_commit ;;;
                        delete_prefix (latest_prefix (self_bo_table self))) w2
                   | (Raise e, w2) => (Raise e, w2)
                   end) by reflexivity.
  rewrite E in Hrun.
  eexists. exists evs. split.
  - rewrite Hrun. unfold bind, db_commit, modify, delete_prefix. reflexivity.
  - simpl. rewrite T, <- !app_assoc. simpl. repeat split; try assumption.
    + rewrite W. apply filter_ext_in. intros r Hr.
      unfold loaded. rewrite named_in_loaded by exact Hr. reflexivity.
    + rewrite C. reflexivity.
    + apply (Hnil H).
    + rewrite (proj1 (Hnil H)). reflexivity.
    + rewrite (proj1 (Hnil H)). reflexivity.
Qed.

(** C9: for any list of ids, [delete_writes] completes and leaves the
    board row (notice ids, post and comment counters), the recency table
    and the scraps as they were; rows that were not named stay in the
    table unchanged, comment counters included, and no row appears or
    changes; every loaded row, comment or not, gets one reversal attempt
    under the post-authoring tag; the calls end with a single commit
    followed by the invalidation of the board's latest-cache prefix. *)
Theorem delete_writes_skips_aggregates
        (self : BoardService) (wr_ids : list Z) (w : World) :
  exists w' evs,
    delete_writes self wr_ids w = (Ok tt, w')
    /\ w_board w' = w_board w
    /\ w_board_new w' = w_board_new w
    /\ w_scraps w' = w_scraps w
    /\ (forall r, In r (w_writes w') -> In r (w_writes w))
    /\ (forall r, In r (w_writes w) -> named_in wr_ids r = false ->
                  In r (w_writes w'))
    /\ reversal_keys evs
       = map (fun r => (mb_id r, self_bo_table self, wr_id r, tag_write))
             (filter (named_in wr_ids) (w_writes w))
    /\ forallb (fun e => negb (is_commit e)) evs = true
    /\ w_trace w'
       = w_trace w ++ evs
         ++ [EvCommit; EvDeletePrefix (latest_prefix (self_bo_table self))].
Proof.
  destruct (delete_writes_effect self wr_ids w)
    as (w' & evs & E & W & B & N & S & T & K & _ & P & _).
  exists w', evs. repeat split; try assumption.
  - intros r Hr. rewrite W in Hr. apply filter_In in Hr. tauto.
  - intros r Hr Hn. rewrite W. apply filter_In. rewrite Hn. tauto.
Qed.

(** C10: [delete_writes] never raises; the rows that leave the table are
    exactly those whose id is named, ids without a row change nothing, and
    reversals and attachment removals are issued for the loaded rows only;
    when no named id has a row the tables, ledger and attachments stay as
    they were and the calls are just the commit and the invalidation of the
    latest-cache prefix, which is applied to the cache. *)
Theorem delete_writes_ignores_missing_ids
        (self : BoardService) (wr_ids : list Z) (w : World) :
  exists w' evs,
    delete_writes self wr_ids w = (Ok tt, w')
    /\ w_writes w' = filter (fun r => negb (named_in wr_ids r)) (w_writes w)
    /\ map (fun k => snd (fst k)) (reversal_keys evs)
       = map wr_id (filter (named_in wr_ids) (w_writes w))
    /\ map snd (file_removals evs)
       = map wr_id (filter (named_in wr_ids) (w_writes w))
    /\ w_trace w'
       = w_trace w ++ evs
         ++ [EvCommit; EvDeletePrefix (latest_prefix (self_bo_table self))]
    /\ w_cache w'
       = filter (fun k => negb (String.prefix
                                  (latest_prefix (self_bo_table self)) k))
                (w_cache w)
    /\ ((forall r, In r (w_writes w) -> named_in wr_ids r = false) ->
        evs = [] /\ w_writes w' = w_writes w /\ w_points w' = w_points w
        /\ w_files w' = w_files w).
Proof.
  destruct (delete_writes_effect self wr_ids w)
    as (w' & evs & E & W & _ & _ & _ & T & K & F & _ & C & Hnil).
  exists w', evs. split; [exact E|]. split; [exact W|].
  split; [rewrite K, map_map; reflexivity|].
  split; [rewrite F, map_map; reflexivity|].
  split; [exact T|]. split; [exact C|].
  intros Hnone.
  assert (Hloaded : filter (named_in wr_ids) (w_writes w) = []).
  { clear - Hnone. induction (w_writes w) as [|x l IH]; [reflexivity|].
    simpl. rewrite (Hnone x (or_introl eq_refl)).
    apply IH. intros r Hr. apply Hnone. right. exact Hr. }
  destruct (Hnil Hloaded) as (He & Hp & Hf).
  split; [exact He|]. split; [|split; assumption].
  rewrite W. clear - Hnone.
  induction (w_writes w) as [|x l IH]; [reflexivity|].
  simpl. rewrite (Hnone x (or_introl eq_refl)). simpl. f_equal.
  apply IH. intros r Hr. apply Hnone. right. exact Hr.
Qed.

(* ================================================================== *)
(** ** Listing: secret comments and search *)

Section Listing.

Context {lib : Lib}.

(** C6: a comment flagged secret in a listed post's comment set shows the
    fixed placeholder exactly when the viewer is no administrator, owns
    neither the comment nor its parent post and has no session grant for
    that comment; as soon as one of these holds the real content is
    shown. *)
Theorem secret_comment_redaction
        (self : BoardService) (board : Board) (ws : list Write)
        (write : Write) (cv : CommentView) :
  In cv (comments_of self board ws write) ->
  is_secret cv = true ->
  let c := cv_comment cv in
  let viewer := Member.mb_id (self_member self) in
  let allowed :=
    Py.truthy_opt (Member.admin_type (self_member self))
    || is_owner (Some c) viewer
    || is_owner (db_get ws (wr_parent c)) viewer
    || session (self_request self)
               (ss_secret_comment (self_bo_table self) (wr_id c)) in
  In c ws
  /\ wr_parent c = wr_id write
  /\ Py.contains "secret" (wr_option c) = true
  /\ (allowed = false ->
      is_secret_content cv = true /\ save_content cv = secret_placeholder)
  /\ (allowed = true ->
      is_secret_content cv = false /\ save_content cv = wr_content c).
Proof.
  intros Hin Hsecret.
  unfold comments_of in Hin. apply in_map_iff in Hin as (c0 & Hcv & Hc0).
  apply in_order_by, filter_In in Hc0 as [Hws Hsel].
  apply andb_true_iff in Hsel as [Hpar _]. apply Z.eqb_eq in Hpar.
  assert (Hcv0 : cv_comment cv = c0).
  { subst cv. unfold decorate_comment.
    match goal with |- context [if ?b then _ else _] => destruct b end;
      reflexivity. }
  cbv zeta. rewrite !Hcv0. clear Hcv0.
  subst cv. revert Hsecret. unfold decorate_comment.
  set (admin := Py.truthy_opt (Member.admin_type (self_member self))).
  set (own := is_owner (Some c0) (Member.mb_id (self_member self))).
  set (pown := is_owner (db_get ws (wr_parent c0))
                        (Member.mb_id (self_member self))).
  set (grant := session (self_request self)
                        (ss_secret_comment (self_bo_table self) (wr_id c0))).
  destruct (Py.contains "secret" (wr_option c0)) eqn:Hs;
    destruct admin, own, pown, grant; simpl; intros Hsecret;
    try discriminate Hsecret;
    (split; [exact Hws|]); (split; [exact Hpar|]); (split; [reflexivity|]);
    split; intros H; try discriminate H; split; reflexivity.
Qed.

(** C4: with a search active, the rows [get_query] selects are exactly the
    rows whose id is the parent id of some row that the search accepts
    inside the window; where parent ids point at top-level posts, no
    selected row is a comment, and a matching comment brings in its parent
    post and is not selected itself. *)
Theorem search_returns_parent_posts
        (self : BoardService) (cf_search_part : Z) (params : SearchParams)
        (ws : list Write) (spt : Z) :
  is_search (query_sca (self_request self)) params = true ->
  request_spt self (min_wr_num ws) = Some spt ->
  parents_are_posts ws ->
  exists lq,
    get_query self cf_search_part params ws = Ok lq /\
    let hit m :=
      write_search_filter (query_sca (self_request self)) (sfl params)
                          (stx params) m
      && between spt (spt + Py.int_or cf_search_part 10000) (wr_num m) in
    let result := run_query (lq_query lq) ws in
    (forall r, In r result <->
               In r ws /\ exists m, In m ws /\ hit m = true
                                    /\ wr_parent m = wr_id r)
    /\ (forall r, In r result -> wr_is_comment r = 0)
    /\ (forall c p, In c ws -> In p ws -> wr_is_comment c <> 0 ->
                    hit c = true -> wr_id p = wr_parent c ->
                    In p result /\ ~ In c result).
Proof.
  intros Hsearch Hspt Hwf. unfold get_query. rewrite Hsearch, Hspt.
  eexists. split; [reflexivity|].
  pose (hit := fun m =>
          write_search_filter (query_sca (self_request self)) (sfl params)
                              (stx params) m
          && between spt (spt + Py.int_or cf_search_part 10000) (wr_num m)).
  match goal with
  | |- context [run_query ?q ws] => set (result := run_query q ws)
  end.
  assert (Hchar : forall r, In r result <->
            In r ws /\ exists m, In m ws /\ hit m = true
                                 /\ wr_parent m = wr_id r).
  { intros r. unfold result, run_query. simpl.
    rewrite filter_In. split.
    - intros [Hr Hex]. split; [exact Hr|].
      apply existsb_exists in Hex as (i & Hi & Heq).
      apply Z.eqb_eq in Heq. subst i.
      apply nodup_In, in_map_iff in Hi as (m & Hm & Hin).
      apply filter_In in Hin as [Hin Hhit].
      exists m. repeat split; try assumption.
      unfold apply_sort in Hhit.
      destruct (sst params) as [col|]; simpl in Hhit;
        repeat match type of Hhit with
               | context [if ?b then _ else _] => destruct b; simpl in Hhit
               end; exact Hhit.
    - intros [Hr (m & Hm & Hhit & Hpar)]. split; [exact Hr|].
      apply existsb_exists. exists (wr_id r). split; [|apply Z.eqb_refl].
      apply nodup_In, in_map_iff. exists m. split; [exact Hpar|].
      apply filter_In. split; [exact Hm|].
      unfold apply_sort.
      destruct (sst params) as [col|]; simpl;
        repeat match goal with
               | |- context [if ?b then _ else _] => destruct b; simpl
               end; exact Hhit. }
  assert (Hposts : forall r, In r result -> wr_is_comment r = 0).
  { intros r Hr. apply Hchar in Hr as [Hr (m & Hm & _ & Hpar)].
    apply (Hwf m r Hm Hr). symmetry. exact Hpar. }
  split; [exact Hchar|]. split; [exact Hposts|].
  intros c p Hc Hp Hcom Hhit Hpar. split.
  - apply Hchar. split; [exact Hp|]. exists c. repeat split; try assumption.
    symmetry. exact Hpar.
  - intros Hin. apply Hcom. apply Hposts. exact Hin.
Qed.

End Listing.

Lemma secret_comment_redaction_witness :
  let ws := [Demo.post1; Demo.comment2; Demo.comment3] in
  let hidden :=
    @decorate_comment Demo.lib (Demo.service Demo.guest Demo.no_session)
                      Demo.board ws Demo.comment2 in
  let shown :=
    @decorate_comment Demo.lib (Demo.service Demo.member_bob Demo.no_session)
                      Demo.board ws Demo.comment2 in
  (is_secret_content hidden = true /\ save_content hidden = secret_placeholder)
  /\ (is_secret_content shown = false /\ save_content shown = "whisper").
Proof.
  intros ws hidden shown. split.
  - refine (proj1 (proj2 (proj2 (proj2
      (@secret_comment_redaction Demo.lib
         (Demo.service Demo.guest Demo.no_session) Demo.board ws Demo.post1
         hidden _ eq_refl)))) eq_refl).
    left. reflexivity.
  - refine (proj2 (proj2 (proj2 (proj2
      (@secret_comment_redaction Demo.lib
         (Demo.service Demo.member_bob Demo.no_session) Demo.board ws
         Demo.post1 shown _ eq_refl)))) eq_refl).
    left. reflexivity.
Defined.

Lemma search_returns_parent_posts_witness :
  let ws := [Demo.post1; Demo.comment2; Demo.comment3] in
  exists lq,
    @get_query Demo.lib (Demo.search None) 0 (Demo.find_text "whisper") ws
    = Ok lq
    /\ In Demo.post1 (run_query (lq_query lq) ws)
    /\ ~ In Demo.comment2 (run_query (lq_query lq) ws).
Proof.
  intros ws.
  destruct (@search_returns_parent_posts Demo.lib (Demo.search None) 0
              (Demo.find_text "whisper") ws (-1) eq_refl eq_refl)
    as (lq & E & _ & _ & H).
  - intros r p Hr Hp.
    destruct Hr as [<-|[<-|[<-|[]]]]; destruct Hp as [<-|[<-|[<-|[]]]];
      simpl; intros Hid; reflexivity || discriminate Hid.
  - exists lq. split; [exact E|].
    apply (H Demo.comment2 Demo.post1).
    + right. left. reflexivity.
    + left. reflexivity.
    + discriminate.
    + reflexivity.
    + reflexivity.
Defined.

(* ================================================================== *)
(** ** The search window *)

(** The window that [get_query] applies holds its upper end: the first
    sequence number of the next window belongs to this one as well. *)
Lemma between_holds_next_start (spt search_part : Z) :
  0 <= search_part ->
  between spt (spt + search_part) (spt + search_part) = true
  /\ between (spt + search_part) (spt + search_part + search_part)
             (spt + search_part) = true.
Proof.
  intros H. unfold between. split; apply andb_true_iff; split;
    apply Z.leb_le; lia.
Qed.

(** C2: an active search is restricted to the window that starts at the
    given start and is one partition width long; evaluated on a board whose
    post 5 has sequence number -10000, with the default width 10000: the
    window at -20000 announces -10000 as the next start, and post 5 is
    returned both by the window at -20000 and by the window at -10000. *)
Theorem search_windows_share_their_boundary :
  let ws := [Demo.post1; Demo.post5] in
  let params := Demo.find_text "edge" in
  exists first second,
    @get_query Demo.lib (Demo.search (Some "-20000")) 0 params ws = Ok first
    /\ @get_query Demo.lib (Demo.search (Some "-10000")) 0 params ws
       = Ok second
    /\ lq_next_spt first = Some (-10000)
    /\ run_query (lq_query first) ws = [Demo.post5]
    /\ run_query (lq_query second) ws = [Demo.post5].
Proof.
  intros ws params. eexists. eexists.
  split; [reflexivity|]. split; [reflexivity|].
  split; [reflexivity|]. split; vm_compute; reflexivity.
Qed.

(* ================================================================== *)
(** ** More on the permission check *)

Section Permission.

Context {lib : Lib}.

(** X1: for a post that has an author, [validate_level] lets the request
    through exactly when the requester is the super administrator, or owns
    the post and is not an administrator of lower level than the author;
    it refuses with status 403 otherwise and never writes. *)
Theorem validate_level_member_post
        (self : DeletePostService) (with_session : bool) (w : World) :
  Py.truthy_opt (mb_id (self_write self)) = true ->
  let member := self_member self in
  let allowed :=
    Py.opt_eqb (Member.admin_type member) (Some "super")
    || (is_owner (Some (self_write self)) (Member.mb_id member)
        && negb (Py.truthy_opt (Member.admin_type member)
                 && (self_write_member_level self >? Member.level member))) in
  (allowed = true -> validate_level self with_session w = (Ok tt, w))
  /\ (allowed = false ->
      exists detail,
        validate_level self with_session w
        = (Raise (HTTPError 403 detail None), w)).
Proof.
  intros Hauthor member allowed. subst allowed member.
  unfold validate_level, bind, raise_exception, raise, ret.
  rewrite Hauthor.
  destruct (Py.opt_eqb (Member.admin_type (self_member self)) (Some "super"));
    destruct (Py.truthy_opt (Member.admin_type (self_member self))
              && (self_write_member_level self
                  >? Member.level (self_member self)));
    destruct (is_owner (Some (self_write self))
                       (Member.mb_id (self_member self)));
    simpl; split; intros H; try discriminate H;
    try reflexivity; eexists; reflexivity.
Qed.

(** X2: for a post without an author, [validate_level] lets the request
    through exactly when the requester is the super administrator, or the
    check runs with session support, the session holds the deletion grant
    of this post and the requester is not an administrator of lower level
    than the author; without session support only the super administrator
    passes. *)
Theorem validate_level_guest_post
        (self : DeletePostService) (with_session : bool) (w : World) :
  Py.truthy_opt (mb_id (self_write self)) = false ->
  let member := self_member self in
  let allowed :=
    Py.opt_eqb (Member.admin_type member) (Some "super")
    || (with_session
        && session (self_request self)
                   (ss_delete (self_bo_table self) (self_wr_id self))
        && negb (Py.truthy_opt (Member.admin_type member)
                 && (self_write_member_level self >? Member.level member))) in
  (allowed = true -> validate_level self with_session w = (Ok tt, w))
  /\ (allowed = false ->
      exists detail url,
        validate_level self with_session w
        = (Raise (HTTPError 403 detail url), w)).
Proof.
  intros Hguest member allowed. subst allowed member.
  unfold validate_level, bind, raise_exception, raise, ret.
  rewrite Hguest.
  destruct (Py.opt_eqb (Member.admin_type (self_member self)) (Some "super"));
    destruct (Py.truthy_opt (Member.admin_type (self_member self))
              && (self_write_member_level self
                  >? Member.level (self_member self)));
    destruct with_session;
    destruct (session (self_request self)
                      (ss_delete (self_bo_table self) (self_wr_id self)));
    simpl; split; intros H; try discriminate H;
    try reflexivity; eexists; eexists; reflexivity.
Qed.


(** X11: [check_authority] lets a comment deletion through exactly when the
    requester is an administrator, or the comment has no author and the
    check runs with session support and the session holds the grant for
    this comment, or the comment has an author and the requester owns it;
    it refuses with status 403 otherwise and never writes. *)
Theorem check_authority_passes_iff
        (self : DeleteCommentService) (with_session : bool) (w : World) :
  let member := self_member self in
  let comment := self_comment self in
  let allowed :=
    Py.truthy_opt (Member.admin_type member)
    || (if Py.truthy_opt (mb_id comment)
        then is_owner (Some comment) (Member.mb_id member)
        else with_session
             && session (self_request self)
                        (ss_delete_comment (self_bo_table self)
                                           (self_wr_id self))) in
  (allowed = true -> check_authority self with_session w = (Ok tt, w))
  /\ (allowed = false ->
      exists detail url,
        check_authority self with_session w
        = (Raise (HTTPError 403 detail url), w)).
Proof.
  intros member comment allowed. subst allowed member comment.
  unfold check_authority, raise_exception, raise, ret.
  destruct (Py.truthy_opt (Member.admin_type (self_member self)));
    destruct (Py.truthy_opt (mb_id (self_comment self)));
    destruct (is_owner (Some (self_comment self))
                       (Member.mb_id (self_member self)));
    destruct with_session;
    destruct (session (self_request self)
                      (ss_delete_comment (self_bo_table self)
                                         (self_wr_id self)));
    simpl; split; intros H; try discriminate H;
    try reflexivity; eexists; eexists; reflexivity.
Qed.

End Permission.

(* ================================================================== *)
(** ** More on [delete_write] *)

(** The calls of one turn of the loop: one reversal under the target's id,
    attachments only for a top-level row. *)
Lemma delete_write_row_calls self write counts w :
  exists evs,
    w_trace (snd (delete_write_row self write counts w)) = w_trace w ++ evs
    /\ reversal_keys evs = [cascade_key self write]
    /\ file_removals evs
       = (if is_comment write then []
          else [(bo_table (w_board w), self_wr_id self)])
    /\ forallb (fun e => negb (is_commit e)) evs = true.
Proof.
  unfold delete_write_row, cascade_key, is_comment, bind, gets, delete_point,
    save_point, delete_board_files, modify, ret.
  destruct (Py.truthy_int (wr_is_comment write)); simpl;
    match goal with
    | |- context [existsb ?f ?l] => destruct (existsb f l)
    end; simpl; rewrite <- ?app_assoc; simpl;
    eexists; (split; [reflexivity|]); repeat split.
Qed.

Lemma delete_write_rows_calls self writes counts w :
  exists evs,
    w_trace (snd (delete_write_rows self writes counts w)) = w_trace w ++ evs
    /\ reversal_keys evs = map (cascade_key self) writes
    /\ file_removals evs
       = map (fun _ => (bo_table (w_board w), self_wr_id self))
             (filter (fun r => negb (is_comment r)) writes)
    /\ forallb (fun e => negb (is_commit e)) evs = true
    /\ (writes = [] -> evs = []).
Proof.
  revert counts w. induction writes as [|x rest IH]; intros counts w.
  - exists []. simpl. rewrite app_nil_r. repeat split.
  - destruct (delete_write_row_ok self x counts w) as (w1 & E1 & F1).
    destruct (delete_write_row_calls self x counts w) as (e1 & T1 & K1 & R1 & P1).
    rewrite E1 in T1. simpl in T1.
    destruct (IH (if is_comment x
                  then (fst counts, snd counts + 1)
                  else (fst counts + 1, snd counts)) w1)
      as (e2 & T2 & K2 & R2 & P2 & _).
    exists (e1 ++ e2). simpl delete_write_rows. unfold bind at 1. rewrite E1.
    split; [rewrite T2, T1, app_assoc; reflexivity|].
    split; [rewrite reversal_keys_app, K1, K2; reflexivity|].
    split.
    { rewrite file_removals_app, R1, R2.
      destruct F1 as (_ & Hb & _). rewrite Hb.
      simpl. destruct (is_comment x); reflexivity. }
    split; [rewrite forallb_app, P1, P2; reflexivity|discriminate].
Qed.

(** The world [delete_write] leaves, once the loop has run to [w1]. *)
Lemma delete_write_unfold (self : DeletePostService) (w w1 : World)
      (counts : Z * Z) :
  delete_write_rows self
    (order_by_wr_id
       (filter (fun r => wr_parent r =? self_wr_id self) (w_writes w)))
    (0, 0) w = (Ok counts, w1) ->
  let wr := self_wr_id self in
  let tbl := self_bo_table self in
  let b := w_board w1 in
  let w2 :=
    set_writes (filter (fun r => negb (wr_parent r =? wr)) (w_writes w1)) w1 in
  let w3 :=
    set_board_new
      (filter (fun n => negb (String.eqb (BoardNew.bo_table n) tbl
                              && (BoardNew.wr_parent n =? wr)))
              (w_board_new w1)) w2 in
  let w4 :=
    set_scraps
      (filter (fun s => negb (String.eqb (Scrap.bo_table s) tbl
                              && (Scrap.wr_id s =? wr)))
              (w_scraps w1)) w3 in
  let w5 :=
    set_board
      (mkBoard (bo_table b) (bo_subject b) (set_board_notice b wr)
               (bo_count_write b - fst counts)
               (bo_count_comment b - snd counts)
               (bo_write_point b) (bo_comment_point b)
               (bo_count_delete b) (bo_comment_level b)) w4 in
  let w6 := log EvClose (log EvCommit w5) in
  delete_write self w
  = (Ok tt,
     log (EvDeletePrefix (latest_prefix tbl))
         (set_cache
            (filter (fun k => negb (String.prefix (latest_prefix tbl) k))
                    (w_cache w1))
            w6)).
Proof.
  intros E. unfold delete_write. unfold bind at 1. unfold gets at 1.
  unfold bind at 1. rewrite E. reflexivity.
Qed.

(** X4: [delete_write] attempts exactly one ledger reversal for each row
    under the target, in ascending [wr_id] order, every one keyed by the
    target's id (for comments too) and tagged by the kind of the row; it
    removes attachments under the target's id once per top-level row; its
    calls end with one commit, the close of the session and the
    invalidation of the board's latest-cache prefix. *)
Theorem delete_write_calls (self : DeletePostService) (w : World) :
  let under :=
    order_by_wr_id
      (filter (fun r => wr_parent r =? self_wr_id self) (w_writes w)) in
  exists w' evs,
    delete_write self w = (Ok tt, w')
    /\ w_trace w'
       = w_trace w ++ evs
         ++ [EvCommit; EvClose;
             EvDeletePrefix (latest_prefix (self_bo_table self))]
    /\ reversal_keys evs
       = map (fun r => (mb_id r, self_bo_table self, self_wr_id self,
                        if is_comment r then tag_comment else tag_write))
             under
    /\ file_removals evs
       = map (fun _ => (bo_table (w_board w), self_wr_id self))
             (filter (fun r => negb (is_comment r)) under)
    /\ forallb (fun e => negb (is_commit e)) evs = true.
Proof.
  intros under.
  destruct (delete_write_rows_ok self under (0, 0) w) as (w1 & E & _).
  destruct (delete_write_rows_calls self under (0, 0) w)
    as (evs & T & K & R & P & _).
  rewrite E in T. simpl in T.
  eexists. exists evs. split; [apply (delete_write_unfold self w w1 _ E)|].
  simpl. rewrite T, <- !app_assoc. repeat split; assumption.
Qed.

(** The tables [delete_write] leaves, in terms of the tables it found. *)
Lemma delete_write_tables (self : DeletePostService) (w : World) :
  let wr := self_wr_id self in
  let tbl := self_bo_table self in
  let under := filter (fun r => wr_parent r =? wr) (w_writes w) in
  let b := w_board w in
  exists w',
    delete_write self w = (Ok tt, w')
    /\ w_writes w' = filter (fun r => negb (wr_parent r =? wr)) (w_writes w)
    /\ w_board_new w'
       = filter (fun n => negb (String.eqb (BoardNew.bo_table n) tbl
                                && (BoardNew.wr_parent n =? wr)))
                (w_board_new w)
    /\ w_scraps w'
       = filter (fun s => negb (String.eqb (Scrap.bo_table s) tbl
                                && (Scrap.wr_id s =? wr)))
                (w_scraps w)
    /\ w_cache w'
       = filter (fun k => negb (String.prefix (latest_prefix tbl) k))
                (w_cache w)
    /\ w_board w'
       = mkBoard (bo_table b) (bo_subject b)
                 (filter (fun n => negb (n =? wr)) (bo_notice b))
                 (bo_count_write b
                  - Z.of_nat (List.length
                                (filter (fun r => negb (is_comment r)) under)))
                 (bo_count_comment b
                  - Z.of_nat (List.length (filter is_comment under)))
                 (bo_write_point b) (bo_comment_point b)
                 (bo_count_delete b) (bo_comment_level b).
Proof.
  intros wr tbl under b.
  destruct (delete_write_rows_ok self (order_by_wr_id under) (0, 0) w)
    as (w1 & E & (Fw & Fb & Fn & Fs & Fc)).
  unfold order_by_wr_id in E at 2 3. rewrite !filter_order_by_length in E.
  eexists. split; [apply (delete_write_unfold self w w1 _ E)|].
  simpl. rewrite Fw, Fb, Fn, Fs, Fc. repeat split.
Qed.

Lemma filter_idem {A} (f : A -> bool) (l : list A) :
  filter f (filter f l) = filter f l.
Proof.
  induction l as [|x rest IH]; [reflexivity|].
  simpl. destruct (f x) eqn:E; simpl; rewrite ?E, IH; reflexivity.
Qed.

Lemma filter_none {A} (f : A -> bool) (l : list A) :
  filter f (filter (fun x => negb (f x)) l) = [].
Proof.
  induction l as [|x rest IH]; [reflexivity|].
  simpl. destruct (f x) eqn:E; simpl; rewrite ?E; exact IH.
Qed.

(** X5: besides the rows under the target, [delete_write] removes exactly
    the recency rows of this board whose parent is the target, the scraps
    of the target on this board, the target's id from the pinned ids and
    the cache entries under the board's latest prefix; every other recency
    row, scrap, pinned id and cache entry stays, and the board's settings
    are not touched. *)
Theorem delete_write_cleans_indexes (self : DeletePostService) (w : World) :
  let wr := self_wr_id self in
  let tbl := self_bo_table self in
  exists w',
    delete_write self w = (Ok tt, w')
    /\ (forall r, In r (w_writes w') <->
                  In r (w_writes w) /\ wr_parent r <> wr)
    /\ (forall n, In n (w_board_new w') <->
                  In n (w_board_new w)
                  /\ ~ (BoardNew.bo_table n = tbl
                        /\ BoardNew.wr_parent n = wr))
    /\ (forall s, In s (w_scraps w') <->
                  In s (w_scraps w)
                  /\ ~ (Scrap.bo_table s = tbl /\ Scrap.wr_id s = wr))
    /\ (forall i, In i (bo_notice (w_board w')) <->
                  In i (bo_notice (w_board w)) /\ i <> wr)
    /\ (forall k, In k (w_cache w') <->
                  In k (w_cache w)
                  /\ String.prefix (latest_prefix tbl) k = false)
    /\ bo_table (w_board w') = bo_table (w_board w)
    /\ bo_subject (w_board w') = bo_subject (w_board w)
    /\ bo_write_point (w_board w') = bo_write_point (w_board w)
    /\ bo_comment_point (w_board w') = bo_comment_point (w_board w)
    /\ bo_count_delete (w_board w') = bo_count_delete (w_board w)
    /\ bo_comment_level (w_board w') = bo_comment_level (w_board w).
Proof.
  intros wr tbl.
  destruct (delete_write_tables self w) as (w' & E & W & N & S & C & B).
  exists w'. split; [exact E|]. rewrite W, N, S, C, B. simpl.
  split; [|split; [|split; [|split; [|split; [|repeat split]]]]].
  - intros r. rewrite filter_In, negb_true_iff, Z.eqb_neq. reflexivity.
  - intros n. rewrite filter_In, negb_true_iff, andb_false_iff,
      String.eqb_neq, Z.eqb_neq.
    split; intros [Hin H]; (split; [exact Hin|]).
    + intros [Ha Hb]. destruct H; contradiction.
    + destruct (string_dec (BoardNew.bo_table n) (self_bo_table self))
        as [e|ne]; [right; intros Hb; apply H; split; assumption|left; exact ne].
  - intros s. rewrite filter_In, negb_true_iff, andb_false_iff,
      String.eqb_neq, Z.eqb_neq.
    split; intros [Hin H]; (split; [exact Hin|]).
    + intros [Ha Hb]. destruct H; contradiction.
    + destruct (string_dec (Scrap.bo_table s) (self_bo_table self))
        as [e|ne]; [right; intros Hb; apply H; split; assumption|left; exact ne].
  - intros i. rewrite filter_In, negb_true_iff, Z.eqb_neq. reflexivity.
  - intros k. rewrite filter_In, negb_true_iff. reflexivity.
Qed.


(* ================================================================== *)
(** ** Invariants of the write table *)

Lemma NoDup_map_filter {A B} (g : A -> B) (f : A -> bool) (l : list A) :
  NoDup (map g l) -> NoDup (map g (filter f l)).
Proof.
  induction l as [|x rest IH]; intros H; [exact H|].
  simpl in H. inversion H as [|? ? Hx Hrest]; subst.
  simpl. destruct (f x); [|apply IH; exact Hrest].
  simpl. constructor; [|apply IH; exact Hrest].
  intros Hin. apply Hx. apply in_map_iff in Hin as (y & Hy & Hin).
  apply in_map_iff. exists y. split; [exact Hy|].
  apply filter_In in Hin. tauto.
Qed.

Lemma store_ok_filter (f : Write -> bool) (ws : list Write) :
  store_ok ws -> store_ok (filter f ws).
Proof.
  intros [Hnd Htop]. split; [apply NoDup_map_filter; exact Hnd|].
  intros r Hr. apply Htop. apply filter_In in Hr. tauto.
Qed.

(** Removing rows that are not under [q] leaves the live comments of [q]
    as they were. *)
Lemma live_comments_filter_other (keep : Write -> bool) (ws : list Write)
      (q : Z) :
  (forall r, In r ws -> wr_parent r = q -> keep r = true) ->
  live_comments (filter keep ws) q = live_comments ws q.
Proof.
  intros Hkeep. unfold live_comments. f_equal. f_equal.
  rewrite filter_filter_and. apply filter_ext_in. intros r Hr.
  destruct (wr_parent r =? q) eqn:E.
  - apply Z.eqb_eq in E. rewrite (Hkeep r Hr E). reflexivity.
  - simpl. apply andb_false_r.
Qed.

(** X7: [delete_write] keeps the shape of the write table and its
    denormalised counters: afterwards [wr_id] is still a key, top-level
    posts are still their own parents, every remaining post's comment
    counter still equals the number of its live comments, and parent
    references still point at posts. *)
Theorem delete_write_keeps_invariants (self : DeletePostService) (w : World) :
  store_ok (w_writes w) ->
  counters_ok (w_writes w) ->
  exists w',
    delete_write self w = (Ok tt, w')
    /\ store_ok (w_writes w')
    /\ counters_ok (w_writes w')
    /\ (parents_are_posts (w_writes w) -> parents_are_posts (w_writes w')).
Proof.
  intros Hok Hcnt.
  destruct (delete_write_tables self w) as (w' & E & W & _).
  exists w'. split; [exact E|]. rewrite W.
  split; [apply store_ok_filter; exact Hok|]. split.
  - intros p Hp Hpost. apply filter_In in Hp as [Hin Hpar].
    apply negb_true_iff, Z.eqb_neq in Hpar.
    rewrite (Hcnt p Hin Hpost). symmetry.
    apply live_comments_filter_other. intros r _ Hr.
    apply negb_true_iff, Z.eqb_neq. rewrite Hr.
    rewrite <- (proj2 Hok p Hin Hpost). exact Hpar.
  - intros Hpp r p Hr Hp. apply filter_In in Hr as [Hr _].
    apply filter_In in Hp as [Hp _]. apply Hpp; assumption.
Qed.

Lemma delete_write_keeps_invariants_witness :
  exists w',
    delete_write (Demo.delete_post1 Demo.member_alice)
                 (Demo.world [Demo.post1; Demo.comment2; Demo.comment3;
                              Demo.post4])
    = (Ok tt, w')
    /\ store_ok (w_writes w') /\ counters_ok (w_writes w').
Proof.
  destruct (delete_write_keeps_invariants
              (Demo.delete_post1 Demo.member_alice)
              (Demo.world [Demo.post1; Demo.comment2; Demo.comment3;
                           Demo.post4]))
    as (w' & E & Hs & Hc & _).
  - split.
    + simpl. repeat constructor; simpl; intuition discriminate.
    + intros r [<-|[<-|[<-|[<-|[]]]]]; simpl; intros H;
        reflexivity || discriminate H.
  - intros p [<-|[<-|[<-|[<-|[]]]]]; simpl; intros H;
      reflexivity || discriminate H.
  - exists w'. split; [exact E|]. split; assumption.
Defined.

(* ------------------------------------------------------------------ *)

Lemma update_preserves_id parent r :
  wr_id (if wr_id r =? parent then dec_wr_comment r else r) = wr_id r.
Proof. destruct (wr_id r =? parent); reflexivity. Qed.

Lemma filter_all {A} (f : A -> bool) (l : list A) :
  (forall x, In x l -> f x = true) -> filter f l = l.
Proof.
  induction l as [|x rest IH]; intros H; [reflexivity|].
  simpl. rewrite (H x (or_introl eq_refl)). f_equal.
  apply IH. intros y Hy. apply H. right. exact Hy.
Qed.

(** Taking the one row with the id of comment [c] out of the table lowers
    the live comments of its parent by one and no other count. *)
Lemma count_comments_remove (ws : list Write) (c : Write) (q : Z) :
  NoDup (map wr_id ws) -> In c ws -> is_comment c = true ->
  Nat.add
    (List.length (filter (fun r => (wr_parent r =? q) && is_comment r)
                         (db_delete c ws)))
    (if wr_parent c =? q then 1%nat else 0%nat)
  = List.length (filter (fun r => (wr_parent r =? q) && is_comment r) ws).
Proof.
  unfold db_delete.
  induction ws as [|x rest IH]; intros Hnd Hin Hc; [easy|].
  simpl in Hnd. inversion Hnd as [|? ? Hx Hrest]; subst.
  destruct Hin as [->|Hin].
  - simpl. rewrite Z.eqb_refl. simpl. rewrite Hc.
    rewrite (filter_all (fun r => negb (wr_id r =? wr_id c)) rest).
    + destruct (wr_parent c =? q); simpl; lia.
    + intros y Hy. apply negb_true_iff, Z.eqb_neq. intros Heq.
      apply Hx. rewrite <- Heq. apply in_map. exact Hy.
  - assert (Hne : wr_id x <> wr_id c).
    { intros Heq. apply Hx. rewrite Heq. apply in_map. exact Hin. }
    apply Z.eqb_neq in Hne. simpl. rewrite Hne. simpl.
    specialize (IH Hrest Hin Hc).
    destruct ((wr_parent x =? q) && is_comment x); simpl; lia.
Qed.

Lemma live_comments_remove (ws : list Write) (c : Write) (q : Z) :
  NoDup (map wr_id ws) -> In c ws -> is_comment c = true ->
  live_comments (db_delete c ws) q
  = live_comments ws q - (if wr_parent c =? q then 1 else 0).
Proof.
  intros Hnd Hin Hc. unfold live_comments.
  rewrite <- (count_comments_remove ws c q Hnd Hin Hc), Nat2Z.inj_add.
  destruct (wr_parent c =? q); simpl; lia.
Qed.

Lemma filter_map_length {A B} (f : A -> B) (p : B -> bool) (l : list A) :
  List.length (filter p (map f l))
  = List.length (filter (fun x => p (f x)) l).
Proof.
  induction l as [|x rest IH]; [reflexivity|].
  simpl. destruct (p (f x)); simpl; rewrite IH; reflexivity.
Qed.

Lemma live_comments_update (parent : Z) (ws : list Write) (q : Z) :
  live_comments (update_wr_comment parent ws) q = live_comments ws q.
Proof.
  unfold live_comments, update_wr_comment. f_equal.
  rewrite filter_map_length. f_equal. apply filter_ext. intros r.
  destruct (wr_id r =? parent); reflexivity.
Qed.

(** X8: [delete_comment] on a comment of the table keeps the shape of the
    table and its denormalised counters: if every post's comment counter
    equalled the number of its live comments before, it does so
    afterwards. *)
Theorem delete_comment_keeps_counters
        (self : DeleteCommentService) (w : World) :
  store_ok (w_writes w) ->
  counters_ok (w_writes w) ->
  In (self_comment self) (w_writes w) ->
  is_comment (self_comment self) = true ->
  exists w',
    delete_comment self w = (Ok tt, w')
    /\ store_ok (w_writes w')
    /\ counters_ok (w_writes w').
Proof.
  intros [Hnd Htop] Hcnt Hin Hc. set (c := self_comment self) in *.
  exists (log EvCommit
            (set_writes
               (update_wr_comment (wr_parent c) (db_delete c (w_writes w))) w)).
  split; [reflexivity|]. simpl.
  assert (Hids : map wr_id (update_wr_comment (wr_parent c)
                              (db_delete c (w_writes w)))
                 = map wr_id (db_delete c (w_writes w))).
  { unfold update_wr_comment. rewrite map_map. apply map_ext.
    intros r. apply update_preserves_id. }
  split; [split|].
  - rewrite Hids. apply NoDup_map_filter. exact Hnd.
  - intros r' Hr' Hpost. unfold update_wr_comment in Hr'.
    apply in_map_iff in Hr' as (r & <- & Hr).
    apply filter_In in Hr as [Hr _].
    destruct (wr_id r =? wr_parent c); apply (Htop r Hr); exact Hpost.
  - intros p' Hp' Hpost. unfold update_wr_comment in Hp'.
    apply in_map_iff in Hp' as (p & <- & Hp).
    apply filter_In in Hp as [Hp _].
    rewrite update_preserves_id, live_comments_update.
    rewrite (live_comments_remove _ c _ Hnd Hin Hc).
    rewrite (Z.eqb_sym (wr_parent c) (wr_id p)).
    destruct (wr_id p =? wr_parent c); simpl in *;
      rewrite (Hcnt p Hp Hpost); lia.
Qed.

Lemma delete_comment_keeps_counters_witness :
  exists w',
    delete_comment (Demo.delete_comment2 Demo.member_bob)
                   (Demo.world [Demo.post1; Demo.comment2; Demo.comment3])
    = (Ok tt, w')
    /\ store_ok (w_writes w') /\ counters_ok (w_writes w').
Proof.
  apply (delete_comment_keeps_counters
           (Demo.delete_comment2 Demo.member_bob)
           (Demo.world [Demo.post1; Demo.comment2; Demo.comment3])).
  - split.
    + simpl. repeat constructor; simpl; intuition discriminate.
    + intros r [<-|[<-|[<-|[]]]]; simpl; intros H;
        reflexivity || discriminate H.
  - intros p [<-|[<-|[<-|[]]]]; simpl; intros H;
      reflexivity || discriminate H.
  - right. left. reflexivity.
  - reflexivity.
Defined.

(* ================================================================== *)
(** ** Loading a comment *)

(** X10: [get_comment] never writes; it returns a row only if that row is
    in the table, carries the requested id and is flagged as a comment; a
    missing id is refused with status 404 and the id of a post with status
    400. *)
Theorem get_comment_outcome (id : Z) (w : World) :
  snd (get_comment id w) = w
  /\ (forall c, fst (get_comment id w) = Ok c ->
                In c (w_writes w) /\ wr_id c = id /\ is_comment c = true)
  /\ (db_get (w_writes w) id = None ->
      exists detail, fst (get_comment id w) = Raise (HTTPError 404 detail None))
  /\ (forall p, db_get (w_writes w) id = Some p -> is_comment p = false ->
      exists detail, fst (get_comment id w) = Raise (HTTPError 400 detail None)).
Proof.
  unfold get_comment, bind, gets, raise, ret, db_get.
  destruct (find (fun r => wr_id r =? id) (w_writes w)) as [c|] eqn:E.
  - apply find_some in E as [Hin Hid]. apply Z.eqb_eq in Hid.
    fold (is_comment c). destruct (is_comment c) eqn:Hc; simpl.
    + split; [reflexivity|]. split; [|split].
      * intros c0 H. inversion H. subst c0. repeat split; assumption.
      * discriminate.
      * intros p H. inversion H. subst p. congruence.
    + split; [reflexivity|]. split; [|split].
      * discriminate.
      * discriminate.
      * intros p _ _. eexists. reflexivity.
  - simpl. split; [reflexivity|]. split; [|split].
    + discriminate.
    + intros _. eexists. reflexivity.
    + discriminate.
Qed.

(** X9: once [delete_comment] has run, loading the same comment again is
    refused with status 404: a repeated deletion cannot get past
    [get_comment]. *)
Theorem get_comment_after_delete_comment
        (self : DeleteCommentService) (w : World) :
  exists w' detail,
    delete_comment self w = (Ok tt, w')
    /\ get_comment (wr_id (self_comment self)) w'
       = (Raise (HTTPError 404 detail None), w').
Proof.
  set (c := self_comment self).
  exists (log EvCommit
            (set_writes
               (update_wr_comment (wr_parent c) (db_delete c (w_writes w))) w)).
  eexists. split; [reflexivity|].
  unfold get_comment, bind, gets, raise, db_get. simpl.
  assert (Hnone : find (fun r => wr_id r =? wr_id c)
                       (update_wr_comment (wr_parent c)
                          (db_delete c (w_writes w))) = None).
  { unfold update_wr_comment, db_delete.
    induction (w_writes w) as [|x rest IH]; [reflexivity|].
    simpl. destruct (wr_id x =? wr_id c) eqn:E; simpl; [exact IH|].
    rewrite update_preserves_id, E. exact IH. }
  rewrite Hnone. reflexivity.
Qed.

(* ================================================================== *)
(** ** More on [delete_writes] *)

(** X12: a second [delete_writes] with the same ids, after the first one,
    loads no row: it changes no table, ledger entry or attachment and
    calls neither the ledger nor the attachment store; it only commits and
    invalidates the cache prefix again. *)
Theorem delete_writes_twice
        (self : BoardService) (wr_ids : list Z) (w : World) :
  exists w1 w2,
    delete_writes self wr_ids w = (Ok tt, w1)
    /\ delete_writes self wr_ids w1 = (Ok tt, w2)
    /\ w_writes w2 = w_writes w1
    /\ w_board w2 = w_board w1
    /\ w_board_new w2 = w_board_new w1
    /\ w_scraps w2 = w_scraps w1
    /\ w_points w2 = w_points w1
    /\ w_files w2 = w_files w1
    /\ w_cache w2 = w_cache w1
    /\ w_trace w2
       = w_trace w1
         ++ [EvCommit; EvDeletePrefix (latest_prefix (self_bo_table self))].
Proof.
  destruct (delete_writes_effect self wr_ids w)
    as (w1 & e1 & E1 & W1 & _ & _ & _ & _ & _ & _ & _ & C1 & _).
  destruct (delete_writes_effect self wr_ids w1)
    as (w2 & e2 & E2 & W2 & B2 & N2 & S2 & T2 & _ & _ & _ & C2 & Hnil).
  assert (Hloaded : filter (named_in wr_ids) (w_writes w1) = []).
  { rewrite W1. apply filter_none. }
  destruct (Hnil Hloaded) as (He & Hp & Hf). subst e2.
  exists w1, w2. repeat split; try assumption.
  - rewrite W2, W1. apply filter_idem.
  - rewrite C2, C1. apply filter_idem.
Qed.

(** X13: two [delete_writes] in a row leave the table that one
    [delete_writes] with both id lists leaves. *)
Theorem delete_writes_compose
        (self : BoardService) (ids1 ids2 : list Z) (w : World) :
  exists w1 w2 w12,
    delete_writes self ids1 w = (Ok tt, w1)
    /\ delete_writes self ids2 w1 = (Ok tt, w2)
    /\ delete_writes self (ids1 ++ ids2) w = (Ok tt, w12)
    /\ w_writes w2 = w_writes w12
    /\ w_cache w2 = w_cache w12.
Proof.
  destruct (delete_writes_effect self ids1 w)
    as (w1 & e1 & E1 & W1 & _ & _ & _ & _ & _ & _ & _ & C1 & _).
  destruct (delete_writes_effect self ids2 w1)
    as (w2 & e2 & E2 & W2 & _ & _ & _ & _ & _ & _ & _ & C2 & _).
  destruct (delete_writes_effect self (ids1 ++ ids2) w)
    as (w12 & e12 & E12 & W12 & _ & _ & _ & _ & _ & _ & _ & C12 & _).
  exists w1, w2, w12. repeat split; try assumption.
  - rewrite W2, W1, W12, filter_filter_and. apply filter_ext. intros r.
    unfold named_in. rewrite existsb_app, negb_orb. reflexivity.
  - rewrite C2, C1, C12. apply filter_idem.
Qed.

(* ================================================================== *)
(** ** More on [get_query] *)

Lemma min_wr_num_fold (rest : list Write) (m : Z) :
  fold_left (fun a x => Z.min a (wr_num x)) rest m <= m
  /\ forall r, In r rest ->
               fold_left (fun a x => Z.min a (wr_num x)) rest m <= wr_num r.
Proof.
  revert m. induction rest as [|x tl IH]; intros m; simpl.
  - split; [lia|intros r []].
  - destruct (IH (Z.min m (wr_num x))) as [H1 H2]. split; [lia|].
    intros r [<-|Hr]; [lia|apply H2; exact Hr].
Qed.

(** No row of the table lies below [coalesce(min(wr_num), 0)]. *)
Lemma min_wr_num_le (ws : list Write) (r : Write) :
  In r ws -> min_wr_num ws <= wr_num r.
Proof.
  destruct ws as [|x rest]; [intros []|].
  simpl. destruct (min_wr_num_fold rest (wr_num x)) as [H1 H2].
  intros [<-|Hr]; [exact H1|apply H2; exact Hr].
Qed.

Lemma length_insert_by {A} (leb : A -> A -> bool) (r : A) (l : list A) :
  List.length (insert_by leb r l) = S (List.length l).
Proof.
  induction l as [|x rest IH]; [reflexivity|].
  simpl. destruct (leb r x); simpl; [reflexivity|rewrite IH; reflexivity].
Qed.

Lemma length_order_by {A} (leb : A -> A -> bool) (l : list A) :
  List.length (order_by leb l) = List.length l.
Proof.
  induction l as [|x rest IH]; [reflexivity|].
  simpl. rewrite length_insert_by, IH. reflexivity.
Qed.

Section MoreListing.

Context {lib : Lib}.

Lemma apply_sort_where (params : SearchParams) (q : Query) :
  q_where (apply_sort params q) = q_where q.
Proof.
  unfold apply_sort. destruct (sst params) as [column|]; [|reflexivity].
  destruct (Py.truthy_str column && hasattr_write_model column);
    [|reflexivity].
  destruct (Py.opt_eqb (sod params) (Some "desc")); reflexivity.
Qed.

(** X15: without a search, [get_query] always returns a query, whatever
    window start the request carries; it offers no neighbouring window and
    selects exactly the rows of the table that pass the filter and are not
    comments. *)
Theorem get_query_plain_listing
        (self : BoardService) (cf_search_part : Z) (params : SearchParams)
        (ws : list Write) :
  is_search (query_sca (self_request self)) params = false ->
  exists lq,
    get_query self cf_search_part params ws = Ok lq
    /\ lq_prev_spt lq = None
    /\ lq_next_spt lq = None
    /\ forall r, In r (run_query (lq_query lq) ws) <->
                 In r ws
                 /\ write_search_filter (query_sca (self_request self))
                                        (sfl params) (stx params) r = true
                 /\ wr_is_comment r = 0.
Proof.
  intros Hplain. unfold get_query. rewrite Hplain.
  eexists. split; [reflexivity|]. simpl. split; [reflexivity|].
  split; [reflexivity|]. intros r. unfold run_query. rewrite filter_In.
  simpl. rewrite !apply_sort_where. simpl.
  rewrite andb_true_iff, Z.eqb_eq. reflexivity.
Qed.

(** X14: in a search, [get_query] fails with [ValueError] exactly when the
    request carries a window start that is not an integer; a request
    without a window start never fails. *)
Theorem get_query_bad_window_start
        (self : BoardService) (cf_search_part : Z) (params : SearchParams)
        (ws : list Write) :
  is_search (query_sca (self_request self)) params = true ->
  (get_query self cf_search_part params ws = Raise ValueError
   <-> exists text, query_spt (self_request self) = Some text
                    /\ py_int text = None)
  /\ (forall e, get_query self cf_search_part params ws = Raise e ->
                e = ValueError).
Proof.
  intros Hsearch. unfold get_query, request_spt. rewrite Hsearch.
  destruct (query_spt (self_request self)) as [text|].
  - destruct (py_int text) as [spt|] eqn:E.
    + split; [split; [discriminate|]|discriminate].
      intros (t & Ht & Hn). inversion Ht. subst t. congruence.
    + split; [split; [|reflexivity]|].
      * intros _. exists text. split; [reflexivity|exact E].
      * intros e H. inversion H. reflexivity.
  - split; [split; [discriminate|]|discriminate].
    intros (t & Ht & _). discriminate Ht.
Qed.

(** X16: in a search, the next window is offered only while its start is
    below zero and the previous window only while the start lies above the
    smallest sequence number of the table; a request without a window start
    begins at that smallest number, so no row lies before its window and no
    previous window is offered. *)
Theorem get_query_window_navigation
        (self : BoardService) (cf_search_part : Z) (params : SearchParams)
        (ws : list Write) (spt : Z) :
  is_search (query_sca (self_request self)) params = true ->
  request_spt self (min_wr_num ws) = Some spt ->
  exists lq,
    get_query self cf_search_part params ws = Ok lq
    /\ let width := Py.int_or cf_search_part 10000 in
       (forall n, lq_next_spt lq = Some n <-> n = spt + width /\ n < 0)
       /\ (forall n, lq_prev_spt lq = Some n <->
                     n = spt - width /\ min_wr_num ws < spt)
       /\ width <> 0
       /\ (query_spt (self_request self) = None ->
           lq_prev_spt lq = None
           /\ forall r, In r ws -> spt <= wr_num r).
Proof.
  intros Hsearch Hspt. unfold get_query. rewrite Hsearch, Hspt.
  eexists. split; [reflexivity|]. simpl.
  split; [|split; [|split]].
  - intros n. destruct (spt + Py.int_or cf_search_part 10000 <? 0) eqn:E.
    + apply Z.ltb_lt in E. split.
      * intros H. inversion H. split; [reflexivity|lia].
      * intros [-> _]. reflexivity.
    + apply Z.ltb_ge in E. split; [discriminate|]. intros [-> H]. lia.
  - intros n. destruct (spt >? min_wr_num ws) eqn:E.
    + apply Z.gtb_lt in E. split.
      * intros H. inversion H. split; [reflexivity|exact E].
      * intros [-> _]. reflexivity.
    + split; [discriminate|]. intros [_ H].
      apply Z.gtb_lt in H. congruence.
  - unfold Py.int_or, Py.truthy_int.
    destruct (cf_search_part =? 0) eqn:E; simpl; [discriminate|].
    apply Z.eqb_neq. exact E.
  - intros Hnone. unfold request_spt in Hspt. rewrite Hnone in Hspt.
    inversion Hspt. subst spt. split.
    + destruct (min_wr_num ws >? min_wr_num ws) eqn:E; [|reflexivity].
      apply Z.gtb_lt in E. lia.
    + intros r Hr. apply min_wr_num_le. exact Hr.
Qed.

(** X17: a search does not depend on the requested sort: whatever sort
    field and direction the request names, [get_query] gives the same
    outcome, selects the same rows and leaves the final query without any
    ordering clause. *)
Theorem search_ignores_sort
        (self : BoardService) (cf_search_part : Z) (params : SearchParams)
        (ws : list Write) (sst' sod' : option string) :
  is_search (query_sca (self_request self)) params = true ->
  match get_query self cf_search_part params ws,
        get_query self cf_search_part
                  (mkSearchParams (sfl params) (stx params) sst' sod') ws
  with
  | Ok lq, Ok lq' =>
      q_order (lq_query lq) = []
      /\ run_query (lq_query lq) ws = run_query (lq_query lq') ws
      /\ lq_prev_spt lq = lq_prev_spt lq'
      /\ lq_next_spt lq = lq_next_spt lq'
  | Raise e, Raise e' => e = e'
  | _, _ => False
  end.
Proof.
  intros Hsearch. unfold get_query.
  assert (Hsearch' : is_search (query_sca (self_request self))
                               (mkSearchParams (sfl params) (stx params)
                                               sst' sod') = true)
    by exact Hsearch.
  rewrite Hsearch, Hsearch'.
  destruct (request_spt self (min_wr_num ws)) as [spt|]; [|reflexivity].
  simpl. split; [reflexivity|]. split; [|split; reflexivity].
  unfold run_query. simpl. rewrite !apply_sort_where. reflexivity.
Qed.

(** X18: the comment set attached to a listed post holds one view for each
    row of the table that has the post as parent and the comment flag 1,
    and nothing else; a comment that is not flagged secret always shows its
    real content; whoever may edit a comment may delete it, and a comment
    without an author may be deleted by anyone. *)
Theorem comments_of_listed_post
        (self : BoardService) (board : Board) (ws : list Write)
        (write : Write) :
  List.length (comments_of self board ws write)
  = List.length (filter (fun r => (wr_parent r =? wr_id write)
                                  && (wr_is_comment r =? 1)) ws)
  /\ forall cv, In cv (comments_of self board ws write) ->
       let c := cv_comment cv in
       In c ws /\ wr_parent c = wr_id write /\ wr_is_comment c = 1
       /\ is_secret cv = Py.contains "secret" (wr_option c)
       /\ (is_secret cv = false ->
           is_secret_content cv = false /\ save_content cv = wr_content c)
       /\ (is_edit cv = true -> is_del cv = true)
       /\ (Py.truthy_opt (mb_id c) = false -> is_del cv = true).
Proof.
  unfold comments_of. split.
  - rewrite length_map, length_order_by. reflexivity.
  - intros cv Hin. apply in_map_iff in Hin as (c0 & <- & Hc0).
    apply in_order_by, filter_In in Hc0 as [Hws Hsel].
    apply andb_true_iff in Hsel as [Hpar Hcom].
    apply Z.eqb_eq in Hpar. apply Z.eqb_eq in Hcom.
    assert (Hcv0 : cv_comment (decorate_comment self board ws c0) = c0).
    { unfold decorate_comment.
      match goal with |- context [if ?b then _ else _] => destruct b end;
        reflexivity. }
    cbv zeta. rewrite !Hcv0. clear Hcv0.
    unfold decorate_comment.
    destruct (Py.contains "secret" (wr_option c0));
      destruct (Py.truthy_opt (Member.admin_type (self_member self)));
      destruct (is_owner (Some c0) (Member.mb_id (self_member self)));
      destruct (is_owner (db_get ws (wr_parent c0))
                         (Member.mb_id (self_member self)));
      destruct (session (self_request self)
                        (ss_secret_comment (self_bo_table self) (wr_id c0)));
      simpl;
      (split; [exact Hws|]); (split; [exact Hpar|]); (split; [exact Hcom|]);
      (split; [reflexivity|]);
      (split; [intros H; try discriminate H; split; reflexivity|]);
      (split; [intros H; first [reflexivity|rewrite H; reflexivity]|]);
      intros H; first [reflexivity|rewrite H; apply orb_true_r].
Qed.

End MoreListing.

(* ================================================================== *)
(** ** Paging of a listing *)




Section PagingFacts.

Context {lib : Lib}.

Variable order_rows : list OrderBy -> list Write -> list Write.



End PagingFacts.

(* ================================================================== *)
(** ** The recency list *)

Lemma filter_split_length {A} (f g : A -> bool) (l : list A) :
  Nat.add (List.length (filter (fun x => f x && g x) l))
          (List.length (filter (fun x => f x && negb (g x)) l))
  = List.length (filter f l).
Proof.
  induction l as [|x rest IH]; [reflexivity|].
  simpl. destruct (f x), (g x); simpl; lia.
Qed.

(** X20: the "write" view and the "comment" view split the recency list:
    under the same group and member conditions every entry of the
    unrestricted list is in exactly one of the two views, and the total
    counts add up. *)
Theorem news_views_partition
        (boards : list News.BoardRow) (news : list News.Entry)
        (gr mb : option string) :
  let all := News.get_query gr mb None in
  let posts := News.get_query gr mb (Some "write") in
  let replies := News.get_query gr mb (Some "comment") in
  News.get_total_count boards news all
  = News.get_total_count boards news posts
    + News.get_total_count boards news replies
  /\ (forall e, In e (News.rows boards news all) <->
                In e (News.rows boards news posts)
                \/ In e (News.rows boards news replies))
  /\ (forall e, In e (News.rows boards news posts) ->
                ~ In e (News.rows boards news replies)).
Proof.
  intros all posts replies.
  set (own e := BoardNew.wr_parent (News.entry e)
                =? BoardNew.wr_id (News.entry e)).
  set (base e := match News.board_for boards e with
                 | Some b => all b e
                 | None => false
                 end).
  assert (Hall : forall l, filter (fun e => match News.board_for boards e with
                                            | Some b => all b e
                                            | None => false
                                            end) l = filter base l)
    by reflexivity.
  assert (Hposts : forall l,
             filter (fun e => match News.board_for boards e with
                              | Some b => posts b e
                              | None => false
                              end) l
             = filter (fun e => base e && own e) l).
  { intros l. apply filter_ext. intros e. unfold base, all, posts, own.
    destruct (News.board_for boards e); [|reflexivity].
    unfold News.get_query. simpl. rewrite andb_true_r. reflexivity. }
  assert (Hreplies : forall l,
             filter (fun e => match News.board_for boards e with
                              | Some b => replies b e
                              | None => false
                              end) l
             = filter (fun e => base e && negb (own e)) l).
  { intros l. apply filter_ext. intros e. unfold base, all, replies, own.
    destruct (News.board_for boards e); [|reflexivity].
    unfold News.get_query. simpl. rewrite andb_true_r. reflexivity. }
  unfold News.get_total_count, News.rows.
  rewrite Hall, Hposts, Hreplies, !length_order_by.
  split; [|split].
  - rewrite <- (filter_split_length base own news). lia.
  - intros e. rewrite !in_order_by, !filter_In.
    destruct (base e), (own e); simpl; intuition discriminate.
  - intros e. rewrite !in_order_by, !filter_In.
    destruct (base e), (own e); simpl; intuition discriminate.
Qed.


(* ================================================================== *)
(** ** Deletion from the recency list *)

Lemma invalidations_app evs evs' :
  Site.invalidations (evs ++ evs')
  = Site.invalidations evs ++ Site.invalidations evs'.
Proof.
  induction evs as [|e rest IH]; [reflexivity|].
  destruct e; simpl; rewrite IH; reflexivity.
Qed.

Lemma db_get_id (ws : list Write) (id : Z) (r : Write) :
  db_get ws id = Some r -> In r ws /\ wr_id r = id.
Proof.
  unfold db_get. intros H. apply find_some in H as [Hin Hid].
  apply Z.eqb_eq in Hid. tauto.
Qed.

Lemma db_get_none_filter (ws : list Write) (id : Z) :
  db_get ws id = None -> filter (fun r => negb (wr_id r =? id)) ws = ws.
Proof.
  unfold db_get. intros H. apply filter_all. intros r Hr.
  rewrite (find_none _ _ H r Hr). reflexivity.
Qed.

(** Rows with another id are found as before once a row is gone. *)
Lemma db_get_filter_other (ws : list Write) (gone id : Z) :
  id <> gone ->
  db_get (filter (fun r => negb (wr_id r =? gone)) ws) id = db_get ws id.
Proof.
  intros Hne. unfold db_get. induction ws as [|x rest IH]; [reflexivity|].
  simpl. destruct (wr_id x =? gone) eqn:E; simpl.
  - apply Z.eqb_eq in E. destruct (wr_id x =? id) eqn:E'; [|exact IH].
    apply Z.eqb_eq in E'. congruence.
  - destruct (wr_id x =? id); [reflexivity|exact IH].
Qed.

(** The reversal-or-compensation of one row, on the site: one reversal
    attempt, and nothing but the ledger and the calls change. *)
Lemma reverse_or_compensate (m : option string) (tbl : string) (id : Z)
      (action : string) (args : list Py.value) (s : Site.t) :
  let s1 :=
    let (found, s0) := Site.delete_point m tbl id action s in
    if negb found then Site.save_point args s0 else s0 in
  Site.boards s1 = Site.boards s
  /\ Site.tables s1 = Site.tables s
  /\ Site.news s1 = Site.news s
  /\ Site.files s1 = Site.files s
  /\ Site.cache s1 = Site.cache s
  /\ exists evs,
       Site.trace s1 = Site.trace s ++ evs
       /\ forallb (fun e => negb (is_commit e)) evs = true
       /\ Site.invalidations evs = []
       /\ reversal_keys evs = [(m, tbl, id, action)]
       /\ file_removals evs = [].
Proof.
  unfold Site.delete_point, Site.save_point, Site.put.
  destruct (existsb (Point.matches m tbl id action) (Site.points s));
    cbn [negb Site.boards Site.tables Site.news Site.files Site.cache
         Site.trace];
    repeat (split; [reflexivity|]); rewrite <- ?app_assoc;
    eexists; (split; [reflexivity|]); repeat split.
Qed.

(** What the end of a turn does: attachments of the row (when there is
    one), the recency entry, the cache prefix. *)
Lemma finish_turn (new : News.Entry) (s s1 : Site.t)
      (removal : option (string * Z)) (evs : list Event) :
  Site.boards s1 = Site.boards s ->
  Site.news s1 = Site.news s ->
  Site.cache s1 = Site.cache s ->
  Site.trace s1 = Site.trace s ++ evs ->
  let tbl := BoardNew.bo_table (News.entry new) in
  let s2 :=
    match removal with
    | Some (t, i) => Site.delete_board_files t i s1
    | None => s1
    end in
  let s3 := Site.delete_prefix (latest_prefix tbl) (Site.delete_new new s2) in
  Site.boards s3 = Site.boards s
  /\ Site.tables s3 = Site.tables s1
  /\ Site.news s3
     = filter (fun e => negb (News.bn_id e =? News.bn_id new)) (Site.news s)
  /\ Site.cache s3
     = filter (fun k => negb (String.prefix (latest_prefix tbl) k))
              (Site.cache s)
  /\ Site.trace s3
     = Site.trace s
       ++ evs
       ++ match removal with
          | Some (t, i) => [EvDeleteBoardFiles t i]
          | None => []
          end
       ++ [EvDeletePrefix (latest_prefix tbl)].
Proof.
  intros Hb Hn Hc Ht tbl s2 s3. subst s3 s2.
  unfold Site.delete_prefix, Site.delete_new, Site.delete_board_files,
    Site.put.
  destruct removal as [[t i]|];
    cbn [Site.boards Site.tables Site.news Site.files Site.cache Site.trace];
    rewrite Hb, Hn, Hc, Ht, <- ?app_assoc; repeat split.
Qed.

(** One turn of the loop, for an entry whose board exists. *)
Lemma delete_board_new_step (new : News.Entry) (s : Site.t) (board : Board) :
  let tbl := BoardNew.bo_table (News.entry new) in
  let id := BoardNew.wr_id (News.entry new) in
  Site.get_board s tbl = Some board ->
  exists s' evs,
    Site.delete_board_new new s = (Site.Done, s')
    /\ Site.boards s' = Site.boards s
    /\ Site.news s'
       = filter (fun e => negb (News.bn_id e =? News.bn_id new)) (Site.news s)
    /\ (forall name,
          Site.tables s' name
          = if String.eqb name tbl
            then filter (fun r => negb (wr_id r =? id)) (Site.tables s name)
            else Site.tables s name)
    /\ Site.cache s'
       = filter (fun k => negb (String.prefix (latest_prefix tbl) k))
                (Site.cache s)
    /\ Site.trace s' = Site.trace s ++ evs
    /\ forallb (fun e => negb (is_commit e)) evs = true
    /\ Site.invalidations evs = [latest_prefix tbl]
    /\ reversal_keys evs
       = match Site.target s new with
         | Some bw => [Site.reversal_of bw]
         | None => []
         end
    /\ file_removals evs
       = match Site.target s new with
         | Some bw => [(bo_table (fst bw), wr_id (snd bw))]
         | None => []
         end.
Proof.
  intros tbl id Hboard.
  unfold Site.delete_board_new, Site.target. fold tbl id. rewrite Hboard.
  unfold Site.get_write.
  destruct (db_get (Site.tables s tbl) id) as [write|] eqn:Hw.
  - destruct (db_get_id _ _ _ Hw) as [_ Hid].
    set (s0 := Site.delete_row tbl write s).
    set (action := if wr_is_comment write =? 0 then tag_write else tag_comment).
    match goal with
    | |- context [Site.delete_board_files _ _ ?x] => set (s1 := x)
    end.
    assert (Hledger :
              Site.boards s1 = Site.boards s0
              /\ Site.tables s1 = Site.tables s0
              /\ Site.news s1 = Site.news s0
              /\ Site.files s1 = Site.files s0
              /\ Site.cache s1 = Site.cache s0
              /\ exists evs,
                   Site.trace s1 = Site.trace s0 ++ evs
                   /\ forallb (fun e => negb (is_commit e)) evs = true
                   /\ Site.invalidations evs = []
                   /\ reversal_keys evs
                      = [(mb_id write, bo_table board, wr_id write, action)]
                   /\ file_removals evs = []).
    { subst s1 action. destruct (wr_is_comment write =? 0);
        apply reverse_or_compensate. }
    destruct Hledger as (B1 & T1 & N1 & _ & C1 & evs & R1 & P1 & I1 & K1 & F1).
    pose proof (finish_turn new s0 s1 (Some (bo_table board, wr_id write)) evs
                  B1 N1 C1 R1) as H3.
    cbv beta iota zeta in H3. fold tbl in H3.
    destruct H3 as (B3 & T3 & N3 & C3 & R3).
    exists (Site.delete_prefix (latest_prefix tbl)
              (Site.delete_new new
                 (Site.delete_board_files (bo_table board) (wr_id write) s1))).
    eexists. split; [reflexivity|].
    split; [exact B3|]. split; [exact N3|]. split.
    { intros name. rewrite T3, T1. unfold s0, Site.delete_row, db_delete.
      cbn [Site.tables]. rewrite Hid. reflexivity. }
    split; [exact C3|]. split; [exact R3|].
    rewrite !forallb_app, !invalidations_app, !reversal_keys_app,
      !file_removals_app, P1, I1, K1, F1.
    repeat split.
  - pose proof (finish_turn new s s None [] eq_refl eq_refl eq_refl
                  (eq_sym (app_nil_r _))) as H3.
    cbv beta iota zeta in H3. fold tbl in H3.
    destruct H3 as (B3 & T3 & N3 & C3 & R3).
    exists (Site.delete_prefix (latest_prefix tbl) (Site.delete_new new s)).
    eexists. split; [reflexivity|].
    split; [exact B3|]. split; [exact N3|]. split.
    { intros name. rewrite T3.
      destruct (String.eqb name tbl) eqn:E; [|reflexivity].
      apply String.eqb_eq in E. subst name.
      symmetry. apply db_get_none_filter. exact Hw. }
    split; [exact C3|]. split; [exact R3|]. repeat split.
Qed.

Lemma flat_map_ext_in {A B} (f g : A -> list B) (l : list A) :
  (forall a, In a l -> f a = g a) -> flat_map f l = flat_map g l.
Proof.
  induction l as [|x rest IH]; intros H; [reflexivity|].
  simpl. rewrite (H x (or_introl eq_refl)). f_equal.
  apply IH. intros a Ha. apply H. right. exact Ha.
Qed.

(** The row an entry points at is found as before after a turn of the
    loop for an entry that points elsewhere. *)
Lemma target_after_step (new e : News.Entry) (s s' : Site.t) :
  Site.boards s' = Site.boards s ->
  (forall name,
     Site.tables s' name
     = if String.eqb name (BoardNew.bo_table (News.entry new))
       then filter (fun r => negb (wr_id r
                                   =? BoardNew.wr_id (News.entry new)))
                   (Site.tables s name)
       else Site.tables s name) ->
  (BoardNew.bo_table (News.entry e), BoardNew.wr_id (News.entry e))
  <> (BoardNew.bo_table (News.entry new), BoardNew.wr_id (News.entry new)) ->
  Site.target s' e = Site.target s e.
Proof.
  intros Hb Ht Hne. unfold Site.target, Site.get_write, Site.get_board.
  rewrite Hb, Ht.
  destruct (String.eqb (BoardNew.bo_table (News.entry e))
                       (BoardNew.bo_table (News.entry new))) eqn:E;
    [|reflexivity].
  apply String.eqb_eq in E. rewrite db_get_filter_other; [reflexivity|].
  intros Hid. apply Hne. rewrite E, Hid. reflexivity.
Qed.

(** The loop of [delete_board_news] over entries whose boards exist. *)
Lemma delete_board_new_rows_effect (entries : list News.Entry) (s : Site.t) :
  (forall e, In e entries ->
             Site.get_board s (BoardNew.bo_table (News.entry e)) <> None) ->
  exists s' evs,
    Site.delete_board_new_rows entries s = (Site.Done, s')
    /\ Site.boards s' = Site.boards s
    /\ Site.news s'
       = filter (fun e => negb (existsb (Z.eqb (News.bn_id e))
                                        (map News.bn_id entries)))
                (Site.news s)
    /\ (forall name,
          Site.tables s' name
          = filter (fun r => negb (existsb (Site.points_at name r) entries))
                   (Site.tables s name))
    /\ Site.cache s'
       = filter (fun k =>
                   negb (existsb
                           (fun e => String.prefix
                                       (latest_prefix
                                          (BoardNew.bo_table (News.entry e)))
                                       k)
                           entries))
                (Site.cache s)
    /\ Site.trace s' = Site.trace s ++ evs
    /\ forallb (fun e => negb (is_commit e)) evs = true
    /\ Site.invalidations evs
       = map (fun e => latest_prefix (BoardNew.bo_table (News.entry e)))
             entries
    /\ (NoDup (map (fun e => (BoardNew.bo_table (News.entry e),
                              BoardNew.wr_id (News.entry e))) entries) ->
        reversal_keys evs
        = flat_map (fun e => match Site.target s e with
                             | Some bw => [Site.reversal_of bw]
                             | None => []
                             end) entries
        /\ file_removals evs
           = flat_map (fun e => match Site.target s e with
                                | Some bw => [(bo_table (fst bw),
                                               wr_id (snd bw))]
                                | None => []
                                end) entries).
Proof.
  revert s. induction entries as [|x rest IH]; intros s Hboards.
  - exists s, []. simpl. rewrite app_nil_r.
    split; [reflexivity|]. split; [reflexivity|].
    split; [symmetry; apply filter_all; reflexivity|].
    split; [intros name; symmetry; apply filter_all; reflexivity|].
    split; [symmetry; apply filter_all; reflexivity|].
    repeat split.
  - destruct (Site.get_board s (BoardNew.bo_table (News.entry x)))
      as [board|] eqn:Hboard;
      [|exfalso; apply (Hboards x (or_introl eq_refl)); exact Hboard].
    destruct (delete_board_new_step x s board Hboard)
      as (s1 & e1 & E1 & B1 & N1 & T1 & C1 & R1 & P1 & I1 & K1 & F1).
    destruct (IH s1) as (s2 & e2 & E2 & B2 & N2 & T2 & C2 & R2 & P2 & I2 & K2).
    { intros e He. unfold Site.get_board. rewrite B1.
      apply Hboards. right. exact He. }
    exists s2, (e1 ++ e2). simpl Site.delete_board_new_rows. rewrite E1.
    split; [exact E2|]. split; [congruence|]. split.
    { rewrite N2, N1, filter_filter_and. apply filter_ext. intros e.
      simpl. rewrite negb_orb. reflexivity. }
    split.
    { intros name. rewrite T2, T1.
      assert (Hp : forall r,
                 Site.points_at name r x
                 = String.eqb name (BoardNew.bo_table (News.entry x))
                   && (wr_id r =? BoardNew.wr_id (News.entry x))).
      { intros r. unfold Site.points_at.
        rewrite String.eqb_sym, Z.eqb_sym. reflexivity. }
      destruct (String.eqb name (BoardNew.bo_table (News.entry x))) eqn:E.
      - rewrite filter_filter_and. apply filter_ext. intros r.
        cbn [existsb]. rewrite Hp, negb_orb. reflexivity.
      - apply filter_ext. intros r. cbn [existsb]. rewrite Hp. reflexivity. }
    split.
    { rewrite C2, C1, filter_filter_and. apply filter_ext. intros k.
      simpl. rewrite negb_orb. reflexivity. }
    split; [rewrite R2, R1, app_assoc; reflexivity|].
    split; [rewrite forallb_app, P1, P2; reflexivity|].
    split; [rewrite invalidations_app, I1, I2; reflexivity|].
    intros Hnd. simpl in Hnd. inversion Hnd as [|? ? Hx Hrest]; subst.
    destruct (K2 Hrest) as [K2' F2'].
    assert (Hsame : forall e, In e rest -> Site.target s1 e = Site.target s e).
    { intros e He. apply (target_after_step x e s s1 B1 T1).
      intros Heq. apply Hx. rewrite <- Heq.
      apply (in_map (fun e0 => (BoardNew.bo_table (News.entry e0),
                                BoardNew.wr_id (News.entry e0)))).
      exact He. }
    split.
    + rewrite reversal_keys_app, K1, K2'. simpl. f_equal.
      apply flat_map_ext_in. intros e He. rewrite (Hsame e He). reflexivity.
    + rewrite file_removals_app, F1, F2'. simpl. f_equal.
      apply flat_map_ext_in. intros e He. rewrite (Hsame e He). reflexivity.
Qed.

(** The ids of the loaded entries are the named ids that exist. *)
Lemma loaded_ids (bn_ids : list Z) (s : Site.t) (e : News.Entry) :
  In e (Site.news s) ->
  existsb (Z.eqb (News.bn_id e)) (map News.bn_id (Site.loaded bn_ids s))
  = existsb (Z.eqb (News.bn_id e)) bn_ids.
Proof.
  intros Hin. unfold Site.loaded.
  destruct (existsb (Z.eqb (News.bn_id e)) bn_ids) eqn:E.
  - apply existsb_exists. exists (News.bn_id e).
    split; [|apply Z.eqb_refl].
    apply in_map. apply filter_In. split; assumption.
  - destruct (existsb _ (map _ _)) eqn:E'; [|reflexivity].
    apply existsb_exists in E' as (i & Hi & Heq).
    apply Z.eqb_eq in Heq. subst i.
    apply in_map_iff in Hi as (e2 & Hid & He2).
    apply filter_In in He2 as [_ He2]. rewrite Hid in He2. congruence.
Qed.

(** X22: when the board of every loaded entry exists, [delete_board_news]
    completes: exactly the recency entries with a named id leave the
    recency table; from each board's write table exactly the rows that a
    loaded entry points at leave, and the rows that stay are unchanged;
    the cache loses the entries under the latest prefix of each loaded
    entry's board; no board row (counters, pinned ids) is touched. *)
Theorem delete_board_news_effect (bn_ids : list Z) (s : Site.t) :
  (forall e, In e (Site.loaded bn_ids s) ->
             Site.get_board s (BoardNew.bo_table (News.entry e)) <> None) ->
  exists s',
    Site.delete_board_news bn_ids s = (Site.Done, s')
    /\ Site.boards s' = Site.boards s
    /\ (forall e, In e (Site.news s') <->
                  In e (Site.news s) /\ ~ In (News.bn_id e) bn_ids)
    /\ (forall name r,
          In r (Site.tables s' name) <->
          In r (Site.tables s name)
          /\ forall e, In e (Site.loaded bn_ids s) ->
                       Site.points_at name r e = false)
    /\ (forall k,
          In k (Site.cache s') <->
          In k (Site.cache s)
          /\ forall e, In e (Site.loaded bn_ids s) ->
                       String.prefix
                         (latest_prefix (BoardNew.bo_table (News.entry e))) k
                       = false).
Proof.
  intros Hboards.
  destruct (delete_board_new_rows_effect (Site.loaded bn_ids s) s Hboards)
    as (s1 & evs & E & B & N & T & C & _).
  exists (Site.put EvCommit s1).
  unfold Site.delete_board_news. rewrite E. split; [reflexivity|]. simpl.
  split; [exact B|]. split; [|split].
  - intros e. rewrite N, filter_In. split.
    + intros [Hin Hn]. split; [exact Hin|].
      rewrite (loaded_ids bn_ids s e Hin) in Hn.
      apply negb_true_iff in Hn. intros Hid.
      assert (existsb (Z.eqb (News.bn_id e)) bn_ids = true); [|congruence].
      apply existsb_exists. exists (News.bn_id e).
      split; [exact Hid|apply Z.eqb_refl].
    + intros [Hin Hn]. split; [exact Hin|].
      rewrite (loaded_ids bn_ids s e Hin). apply negb_true_iff.
      destruct (existsb (Z.eqb (News.bn_id e)) bn_ids) eqn:Ex; [|reflexivity].
      exfalso. apply existsb_exists in Ex as (i & Hi & Heq).
      apply Z.eqb_eq in Heq. subst i. exact (Hn Hi).
  - intros name r. rewrite T, filter_In, negb_true_iff. split.
    + intros [Hin Hn]. split; [exact Hin|]. intros e He.
      destruct (Site.points_at name r e) eqn:Ep; [|reflexivity].
      assert (existsb (Site.points_at name r) (Site.loaded bn_ids s) = true);
        [|congruence].
      apply existsb_exists. exists e. split; assumption.
    + intros [Hin Hn]. split; [exact Hin|].
      destruct (existsb _ _) eqn:Ex; [|reflexivity].
      apply existsb_exists in Ex as (e & He & Hp).
      rewrite (Hn e He) in Hp. discriminate Hp.
  - intros k. rewrite C, filter_In, negb_true_iff. split.
    + intros [Hin Hn]. split; [exact Hin|]. intros e He.
      destruct (String.prefix _ k) eqn:Ep; [|reflexivity].
      assert (existsb
                (fun e0 => String.prefix
                             (latest_prefix
                                (BoardNew.bo_table (News.entry e0))) k)
                (Site.loaded bn_ids s) = true); [|congruence].
      apply existsb_exists. exists e. split; assumption.
    + intros [Hin Hn]. split; [exact Hin|].
      destruct (existsb _ _) eqn:Ex; [|reflexivity].
      apply existsb_exists in Ex as (e & He & Hp).
      rewrite (Hn e He) in Hp. discriminate Hp.
Qed.

(** X23: when the loaded entries point at distinct rows and their boards
    exist, [delete_board_news] attempts one ledger reversal for each
    loaded entry whose row still exists (keyed by the row's author, its
    board, its own id and the tag of its kind) and removes that row's
    attachments; an entry whose row is gone causes neither; the cache
    prefix of every loaded entry's board is invalidated in turn, and the
    calls end with the only commit. *)
Theorem delete_board_news_calls (bn_ids : list Z) (s : Site.t) :
  (forall e, In e (Site.loaded bn_ids s) ->
             Site.get_board s (BoardNew.bo_table (News.entry e)) <> None) ->
  NoDup (map (fun e => (BoardNew.bo_table (News.entry e),
                        BoardNew.wr_id (News.entry e)))
             (Site.loaded bn_ids s)) ->
  exists s' evs,
    Site.delete_board_news bn_ids s = (Site.Done, s')
    /\ Site.trace s' = Site.trace s ++ evs ++ [EvCommit]
    /\ forallb (fun e => negb (is_commit e)) evs = true
    /\ reversal_keys evs
       = flat_map (fun e => match Site.target s e with
                            | Some (board, write) =>
                                [(mb_id write, bo_table board, wr_id write,
                                  if wr_is_comment write =? 0
                                  then tag_write else tag_comment)]
                            | None => []
                            end) (Site.loaded bn_ids s)
    /\ file_removals evs
       = flat_map (fun e => match Site.target s e with
                            | Some (board, write) =>
                                [(bo_table board, wr_id write)]
                            | None => []
                            end) (Site.loaded bn_ids s)
    /\ Site.invalidations evs
       = map (fun e => latest_prefix (BoardNew.bo_table (News.entry e)))
             (Site.loaded bn_ids s).
Proof.
  intros Hboards Hnd.
  destruct (delete_board_new_rows_effect (Site.loaded bn_ids s) s Hboards)
    as (s1 & evs & E & _ & _ & _ & _ & R & P & I & K).
  destruct (K Hnd) as [K' F'].
  exists (Site.put EvCommit s1), evs.
  unfold Site.delete_board_news. rewrite E. split; [reflexivity|]. simpl.
  rewrite R, <- app_assoc. split; [reflexivity|]. split; [exact P|].
  split; [|split; [|exact I]].
  - rewrite K'. apply flat_map_ext. intros e.
    destruct (Site.target s e) as [[board write]|]; reflexivity.
  - rewrite F'. apply flat_map_ext. intros e.
    destruct (Site.target s e) as [[board write]|]; reflexivity.
Qed.

(* ================================================================== *)
(** ** The further properties on the concrete board and site *)

Lemma validate_level_member_post_witness :
  let self := Demo.delete_post1 Demo.member_alice in
  let w := Demo.world [Demo.post1; Demo.comment2] in
  @validate_level Demo.lib self true w = (Ok tt, w).
Proof.
  intros self w.
  exact (proj1 (@validate_level_member_post Demo.lib self true w eq_refl)
               eq_refl).
Defined.

Lemma validate_level_guest_post_witness :
  let w := Demo.world [Demo.post1; Demo.post5] in
  @validate_level Demo.lib DemoSite.granted_guest true w = (Ok tt, w).
Proof.
  intros w.
  exact (proj1 (@validate_level_guest_post Demo.lib DemoSite.granted_guest
                  true w eq_refl)
               eq_refl).
Defined.

Lemma get_query_plain_listing_witness :
  exists lq,
    @get_query Demo.lib (Demo.search (Some "abc")) 0
               (mkSearchParams None None None None)
               [Demo.post1; Demo.comment2] = Ok lq
    /\ lq_prev_spt lq = None
    /\ lq_next_spt lq = None.
Proof.
  destruct (@get_query_plain_listing Demo.lib (Demo.search (Some "abc")) 0
              (mkSearchParams None None None None)
              [Demo.post1; Demo.comment2] eq_refl)
    as (lq & E & Hp & Hn & _).
  exists lq. repeat split; assumption.
Defined.

Lemma get_query_bad_window_start_witness :
  @get_query Demo.lib (Demo.search (Some "abc")) 0 (Demo.find_text "hello")
             [Demo.post1; Demo.comment2] = Raise ValueError.
Proof.
  apply (proj1 (@get_query_bad_window_start Demo.lib
                  (Demo.search (Some "abc")) 0 (Demo.find_text "hello")
                  [Demo.post1; Demo.comment2] eq_refl)).
  exists "abc". split; reflexivity.
Defined.

Lemma get_query_window_navigation_witness :
  exists lq,
    @get_query Demo.lib (Demo.search None) 0 (Demo.find_text "edge")
               [Demo.post1; Demo.post5] = Ok lq
    /\ lq_prev_spt lq = None.
Proof.
  destruct (@get_query_window_navigation Demo.lib (Demo.search None) 0
              (Demo.find_text "edge") [Demo.post1; Demo.post5] (-10000)
              eq_refl eq_refl)
    as (lq & E & _ & _ & _ & H).
  exists lq. split; [exact E|]. apply H. reflexivity.
Defined.

Lemma search_ignores_sort_witness :
  match @get_query Demo.lib (Demo.search None) 0 (Demo.find_text "whisper")
                   [Demo.post1; Demo.comment2],
        @get_query Demo.lib (Demo.search None) 0
                   (mkSearchParams (Some "wr_content") (Some "whisper")
                                   (Some "wr_id") (Some "desc"))
                   [Demo.post1; Demo.comment2]
  with
  | Ok lq, Ok lq' =>
      q_order (lq_query lq) = []
      /\ run_query (lq_query lq) [Demo.post1; Demo.comment2]
         = run_query (lq_query lq') [Demo.post1; Demo.comment2]
      /\ lq_prev_spt lq = lq_prev_spt lq'
      /\ lq_next_spt lq = lq_next_spt lq'
  | Raise e, Raise e' => e = e'
  | _, _ => False
  end.
Proof.
  exact (@search_ignores_sort Demo.lib (Demo.search None) 0
           (Demo.find_text "whisper") [Demo.post1; Demo.comment2]
           (Some "wr_id") (Some "desc") eq_refl).
Defined.


Lemma demo_site_boards_exist :
  forall e, In e (Site.loaded [10; 12; 99] DemoSite.site) ->
            Site.get_board DemoSite.site (BoardNew.bo_table (News.entry e))
            <> None.
Proof.
  intros e [<-|[<-|[]]]; discriminate.
Qed.

Lemma delete_board_news_effect_witness :
  exists s',
    Site.delete_board_news [10; 12; 99] DemoSite.site = (Site.Done, s')
    /\ Site.boards s' = Site.boards DemoSite.site
    /\ forall e, In e (Site.news s') <->
                 In e (Site.news DemoSite.site)
                 /\ ~ In (News.bn_id e) [10; 12; 99].
Proof.
  destruct (delete_board_news_effect [10; 12; 99] DemoSite.site
              demo_site_boards_exist)
    as (s' & E & B & N & _).
  exists s'. split; [exact E|]. split; [exact B|exact N].
Defined.

Lemma delete_board_news_calls_witness :
  exists s' evs,
    Site.delete_board_news [10; 12; 99] DemoSite.site = (Site.Done, s')
    /\ Site.trace s' = evs ++ [EvCommit]
    /\ reversal_keys evs = [(Some "alice", "free", 1, tag_write)]
    /\ Site.invalidations evs = ["latest-free"; "latest-qa"].
Proof.
  destruct (delete_board_news_calls [10; 12; 99] DemoSite.site
              demo_site_boards_exist)
    as (s' & evs & E & T & _ & K & _ & I).
  - simpl. repeat constructor; simpl; intuition discriminate.
  - exists s', evs. split; [exact E|]. split; [exact T|].
    split; [exact K|exact I].
Defined.
